(** * Contab-PY: DTE normalizer (procesador_xml.py), posting engine
      (logica_contable.py), seeding (db_config.py) and the screens of
      app.py that write or report on the store, shallow embedding. *)

From Stdlib Require Import String Ascii List QArith PArith Bool Lia Lqa Permutation.
Import ListNotations.
Open Scope string_scope.
Set Warnings "-register-all".

(** ** Python values and exceptions *)

(** The values [xmltodict.parse] builds: text nodes are [str], empty
    elements are [None], elements with children or attributes are [dict]
    (keys in document order, unique), repeated elements are [list]. *)
Inductive pyval : Type :=
| PNone : pyval
| PStr : string -> pyval
| PDict : list (string * pyval) -> pyval
| PList : list pyval -> pyval.

(** The exceptions raised by the modelled code and its libraries. *)
Inductive excepcion : Type :=
| ValueError : string -> excepcion
| TypeError : string -> excepcion
| AttributeError : string -> excepcion
| ExpatError : string -> excepcion
| IntegrityError : string -> excepcion
| OperationalError : string -> excepcion.

(** [str(exc)]: the message the exception was built with. *)
Definition str_exc (e : excepcion) : string :=
  match e with
  | ValueError m | TypeError m | AttributeError m | ExpatError m
  | IntegrityError m | OperationalError m => m
  end.

Inductive resultado (A : Type) : Type :=
| Ok : A -> resultado A
| Err : excepcion -> resultado A.
Arguments Ok {A} _.
Arguments Err {A} _.

Definition bind_res {A B} (r : resultado A) (k : A -> resultado B) : resultado B :=
  match r with Ok a => k a | Err e => Err e end.

Notation "x <- c1 ;; c2" := (bind_res c1 (fun x => c2))
  (at level 61, c1 at next level, right associativity).

(** Name of the Python type, as it appears in error messages. *)
Definition py_type_name (v : pyval) : string :=
  match v with
  | PNone => "NoneType" | PStr _ => "str" | PDict _ => "dict" | PList _ => "list"
  end.

(** Truth value of [if not x] *)
Definition py_truthy (v : pyval) : bool :=
  match v with
  | PNone => false
  | PStr s => negb (String.eqb s "")
  | PDict kvs => negb (match kvs with [] => true | _ => false end)
  | PList l => negb (match l with [] => true | _ => false end)
  end.

Fixpoint dict_lookup (kvs : list (string * pyval)) (k : string) : option pyval :=
  match kvs with
  | [] => None
  | (k', v) :: r => if String.eqb k' k then Some v else dict_lookup r k
  end.

(** [x.get(k, default)]: only a [dict] has [get]. *)
Definition py_get (v : pyval) (k : string) (default : pyval) : resultado pyval :=
  match v with
  | PDict kvs =>
      match dict_lookup kvs k with Some x => Ok x | None => Ok default end
  | _ => Err (AttributeError ("'" ++ py_type_name v ++ "' object has no attribute 'get'"))
  end.

(** [repr] of a value (quote escaping inside strings is not modelled). *)
Fixpoint py_repr (v : pyval) : string :=
  match v with
  | PNone => "None"
  | PStr s => "'" ++ s ++ "'"
  | PDict kvs =>
      "{" ++ (fix go (l : list (string * pyval)) : string :=
                match l with
                | [] => ""
                | [(k, x)] => "'" ++ k ++ "': " ++ py_repr x
                | (k, x) :: r => "'" ++ k ++ "': " ++ py_repr x ++ ", " ++ go r
                end) kvs ++ "}"
  | PList l =>
      "[" ++ (fix go (l : list pyval) : string :=
                match l with
                | [] => ""
                | [x] => py_repr x
                | x :: r => py_repr x ++ ", " ++ go r
                end) l ++ "]"
  end.

(** [str(v)] *)
Definition py_str (v : pyval) : string :=
  match v with PStr s => s | _ => py_repr v end.

(** Characters removed by [str.strip()] (the ASCII ones). *)
Definition py_isspace (c : ascii) : bool :=
  let n := nat_of_ascii c in
  (Nat.leb 9 n && Nat.leb n 13) || (Nat.leb 28 n && Nat.leb n 32).

Fixpoint lstrip (s : string) : string :=
  match s with
  | EmptyString => EmptyString
  | String c r => if py_isspace c then lstrip r else s
  end.

Definition rev_string (s : string) : string :=
  string_of_list_ascii (rev (list_ascii_of_string s)).

(** [s.strip()] *)
Definition py_strip (s : string) : string :=
  rev_string (lstrip (rev_string (lstrip s))).

(** ** procesador_xml.py *)

(** A date value ([datetime.date]). *)
Record fecha : Type := mk_fecha { anio : Z; mes : Z; dia : Z }.

(** A Python [float]: a finite value, modelled as an exact rational, or
    NaN ([float("nan")]). Infinities are not modelled. *)
Inductive flotante : Type :=
| Fin (q : Q) : flotante
| NaN : flotante.

(** The normalized document record, the dict [parsear_dte_xml] returns.
    [razon_social] is [None] for a record that lacks that key (the
    normalizer always sets it). *)
Record documento : Type := mk_documento {
  folio : string;
  tipo_dte : string;
  fecha_emision : fecha;
  rut_emisor : string;
  razon_social : option string;
  monto_neto : flotante;
  monto_iva : flotante;
  monto_total : flotante;
  url_archivo : string
}.

(** [_buscar_nodo_recursivo]: depth-first search whose "not found" is
    [None], so a [None] found deeper is skipped. *)
Fixpoint _buscar_nodo_recursivo (data : pyval) (clave_objetivo : string) : pyval :=
  match data with
  | PDict kvs =>
      (fix go (l : list (string * pyval)) : pyval :=
         match l with
         | [] => PNone
         | (key, value) :: r =>
             if String.eqb key clave_objetivo then value
             else match _buscar_nodo_recursivo value clave_objetivo with
                  | PNone => go r
                  | found => found
                  end
         end) kvs
  | PList items =>
      (fix go (l : list pyval) : pyval :=
         match l with
         | [] => PNone
         | item :: r =>
             match _buscar_nodo_recursivo item clave_objetivo with
             | PNone => go r
             | found => found
             end
         end) items
  | _ => PNone
  end.

Section Normalizador.

(** Python's [float(s)] on a [str]: [None] when it raises [ValueError]. *)
Variable float_of_str : string -> option flotante.
(** [datetime.strptime(s, "%Y-%m-%d").date()] on a [str]: [None] when it
    raises [ValueError]. *)
Variable strptime_ymd : string -> option fecha.
(** [xmltodict.parse]: the tree, or the message of the [ExpatError]. *)
Variable xmltodict_parse : list Byte.byte -> string + pyval.

(** [_safe_float]: [float(None)], [float(dict)] and [float(list)] raise
    [TypeError], an unparseable [str] raises [ValueError]; both give 0.0. *)
Definition _safe_float (value : pyval) : flotante :=
  match value with
  | PStr s => match float_of_str s with Some x => x | None => Fin 0 end
  | _ => Fin 0
  end.

Definition py_strptime (v : pyval) : resultado fecha :=
  match v with
  | PStr s =>
      match strptime_ymd s with
      | Some d => Ok d
      | None => Err (ValueError ("time data " ++ py_repr v ++
                                 " does not match format '%Y-%m-%d'"))
      end
  | PNone => Err (TypeError "strptime() argument 1 must be str, not None")
  | _ => Err (TypeError ("strptime() argument 1 must be str, not " ++ py_type_name v))
  end.

Definition msg_sin_encabezado : string :=
  "No se encontró nodo 'Encabezado' en el XML".

(** The body of the [try] block, from the parsed tree on. *)
Definition cuerpo_desde_arbol (data : pyval) (nombre_archivo : string)
  : resultado documento :=
  let encabezado := _buscar_nodo_recursivo data "Encabezado" in
  if negb (py_truthy encabezado) then Err (ValueError msg_sin_encabezado) else
  id_doc <- py_get encabezado "IdDoc" (PDict []) ;;
  emisor <- py_get encabezado "Emisor" (PDict []) ;;
  totales <- py_get encabezado "Totales" (PDict []) ;;
  fch <- py_get id_doc "FchEmis" PNone ;;
  fecha_emision <- py_strptime fch ;;
  fol <- py_get id_doc "Folio" (PStr "") ;;
  tip <- py_get id_doc "TipoDTE" (PStr "") ;;
  rut <- py_get emisor "RUTEmisor" (PStr "") ;;
  rzn <- py_get emisor "RznSoc" (PStr "Proveedor sin nombre") ;;
  neto <- py_get totales "MntNeto" PNone ;;
  iva <- py_get totales "IVA" PNone ;;
  total <- py_get totales "MntTotal" PNone ;;
  Ok {| folio := py_strip (py_str fol);
        tipo_dte := py_strip (py_str tip);
        fecha_emision := fecha_emision;
        rut_emisor := py_strip (py_str rut);
        razon_social := Some (py_strip (py_str rzn));
        monto_neto := _safe_float neto;
        monto_iva := _safe_float iva;
        monto_total := _safe_float total;
        url_archivo := nombre_archivo |}.

(** The whole [try] block. *)
Definition cuerpo_parsear (xml_bytes : list Byte.byte) (nombre_archivo : string)
  : resultado documento :=
  match xmltodict_parse xml_bytes with
  | inl m => Err (ExpatError m)
  | inr data => cuerpo_desde_arbol data nombre_archivo
  end.

(** [f"No se pudo procesar {nombre_archivo}: {exc}"] *)
Definition mensaje_error (nombre_archivo causa : string) : string :=
  "No se pudo procesar " ++ nombre_archivo ++ ": " ++ causa.

(** [except Exception as exc: raise ValueError(...) from exc] *)
Definition envolver_error (nombre_archivo : string) (r : resultado documento)
  : resultado documento :=
  match r with
  | Ok d => Ok d
  | Err exc => Err (ValueError (mensaje_error nombre_archivo (str_exc exc)))
  end.

(** The normalizer applied to the tree [xmltodict.parse] returned. *)
Definition normalizar_arbol (data : pyval) (nombre_archivo : string) : resultado documento :=
  envolver_error nombre_archivo (cuerpo_desde_arbol data nombre_archivo).

Definition parsear_dte_xml (xml_bytes : list Byte.byte) (nombre_archivo : string)
  : resultado documento :=
  envolver_error nombre_archivo (cuerpo_parsear xml_bytes nombre_archivo).

End Normalizador.

(** ** db_config.py: the tables *)

(** Row ids are SQLite rowids assigned by the store, starting at 1. *)
Module PlanCuentas.
Record t : Type := mk { id_cuenta : positive; codigo : string; nombre : string; tipo : string }.
End PlanCuentas.

Module Proveedor.
Record t : Type := mk {
  rut : string;
  razon_social : string;
  cuenta_contable_default_id : option positive
}.
End Proveedor.

(** The amounts are the float attributes of the mapped object; a stored
    row never holds NaN, which [flush_documento] refuses. *)
Module Documento.
Record t : Type := mk {
  id : positive;
  folio : string;
  tipo_dte : string;
  fecha_emision : fecha;
  rut_emisor : string;
  monto_neto : flotante;
  monto_iva : flotante;
  monto_total : flotante;
  url_archivo : string
}.
End Documento.

Module Asiento.
Record t : Type := mk { id : positive; id_documento : positive; fecha : fecha }.
End Asiento.

Module Movimiento.
Record t : Type := mk {
  id : positive;
  id_asiento : positive;
  id_cuenta : positive;
  debe : Q;
  haber : Q;
  glosa : string
}.
End Movimiento.

(** The persistent store: one list per table, in rowid order. *)
Record store : Type := mk_store {
  plan_cuentas : list PlanCuentas.t;
  proveedores : list Proveedor.t;
  documentos : list Documento.t;
  asientos : list Asiento.t;
  movimientos : list Movimiento.t
}.

(** Rowid of a new row: one more than the largest, 1 in an empty table. *)
Definition next_id (ids : list positive) : positive :=
  match ids with
  | [] => 1%positive
  | _ => Pos.succ (fold_right Pos.max 1%positive ids)
  end.

(** ** Sessions: state passing with errors; an error drops the session
    state, [begin_tx] then restores the store (rollback). *)
Definition sesion (A : Type) : Type := store -> resultado (A * store).

Definition ret_s {A} (a : A) : sesion A := fun st => Ok (a, st).
Definition bind_s {A B} (m : sesion A) (k : A -> sesion B) : sesion B :=
  fun st => match m st with Ok (a, st') => k a st' | Err e => Err e end.
Definition raise_s {A} (e : excepcion) : sesion A := fun _ => Err e.
Definition lift_s {A} (r : resultado A) : sesion A :=
  fun st => match r with Ok a => Ok (a, st) | Err e => Err e end.

Notation "x <~ c1 ;; c2" := (bind_s c1 (fun x => c2))
  (at level 61, c1 at next level, right associativity).

(** [with SessionLocal.begin() as session:]: commit on normal exit,
    rollback and re-raise on an exception. *)
Definition begin_tx {A} (m : sesion A) (st : store) : resultado A * store :=
  match m st with
  | Ok (a, st') => (Ok a, st')
  | Err e => (Err e, st)
  end.

(** [session.get(TblProveedores, rut)] *)
Definition buscar_proveedor (st : store) (rut : string) : option Proveedor.t :=
  find (fun p => String.eqb (Proveedor.rut p) rut) (proveedores st).

Definition get_proveedor (rut : string) : sesion (option Proveedor.t) :=
  fun st => Ok (buscar_proveedor st rut, st).

(** [session.add(proveedor); session.flush()]: primary key [rut]. *)
Definition flush_proveedor (p : Proveedor.t) : sesion unit :=
  fun st =>
    if existsb (fun q => String.eqb (Proveedor.rut q) (Proveedor.rut p)) (proveedores st)
    then Err (IntegrityError "UNIQUE constraint failed: Tbl_Proveedores.rut")
    else Ok (tt, {| plan_cuentas := plan_cuentas st; proveedores := proveedores st ++ [p];
                    documentos := documentos st; asientos := asientos st;
                    movimientos := movimientos st |}).

Definition misma_clave (d : Documento.t) (folio rut tipo : string) : bool :=
  String.eqb (Documento.folio d) folio && String.eqb (Documento.rut_emisor d) rut
  && String.eqb (Documento.tipo_dte d) tipo.

(** The value SQLite binds for a Python float: a NaN is bound as NULL. *)
Definition sql_real (x : flotante) : option Q :=
  match x with Fin q => Some q | NaN => None end.

Definition error_not_null (columna : string) : excepcion :=
  IntegrityError ("NOT NULL constraint failed: " ++ columna).

(** [session.add(doc_db); session.flush()]: rowid, the [nullable=False]
    amount columns (checked in column order, before the unique
    constraint, as SQLite does) and the constraint
    [uq_doc_folio_rut_tipo]. Also returns the three amounts as stored. *)
Definition flush_documento (mk_row : positive -> Documento.t)
  : sesion (Documento.t * (Q * Q * Q)) :=
  fun st =>
    let row := mk_row (next_id (map Documento.id (documentos st))) in
    match sql_real (Documento.monto_neto row), sql_real (Documento.monto_iva row),
          sql_real (Documento.monto_total row) with
    | None, _, _ => Err (error_not_null "Tbl_Documentos.monto_neto")
    | Some _, None, _ => Err (error_not_null "Tbl_Documentos.monto_iva")
    | Some _, Some _, None => Err (error_not_null "Tbl_Documentos.monto_total")
    | Some neto, Some iva, Some total =>
        if existsb (fun d => misma_clave d (Documento.folio row) (Documento.rut_emisor row)
                                             (Documento.tipo_dte row)) (documentos st)
        then Err (IntegrityError "UNIQUE constraint failed: Tbl_Documentos.folio, Tbl_Documentos.rut_emisor, Tbl_Documentos.tipo_dte")
        else Ok ((row, (neto, iva, total)),
                 {| plan_cuentas := plan_cuentas st; proveedores := proveedores st;
                    documentos := documentos st ++ [row]; asientos := asientos st;
                    movimientos := movimientos st |})
    end.

(** [session.add(asiento); session.flush()] *)
Definition flush_asiento (id_documento : positive) (f : fecha) : sesion Asiento.t :=
  fun st =>
    let row := Asiento.mk (next_id (map Asiento.id (asientos st))) id_documento f in
    Ok (row, {| plan_cuentas := plan_cuentas st; proveedores := proveedores st;
                documentos := documentos st; asientos := asientos st ++ [row];
                movimientos := movimientos st |}).

(** A movement before its rowid is assigned. *)
Record nuevo_mov : Type := mk_nuevo_mov {
  nm_id_asiento : positive; nm_id_cuenta : positive; nm_debe : Q; nm_haber : Q; nm_glosa : string
}.

Fixpoint asignar_ids (next : positive) (l : list nuevo_mov) : list Movimiento.t :=
  match l with
  | [] => []
  | m :: r => Movimiento.mk next (nm_id_asiento m) (nm_id_cuenta m) (nm_debe m)
                (nm_haber m) (nm_glosa m) :: asignar_ids (Pos.succ next) r
  end.

(** [session.add_all(movimientos)], written at commit. *)
Definition add_all_movimientos (l : list nuevo_mov) : sesion unit :=
  fun st =>
    let rows := asignar_ids (next_id (map Movimiento.id (movimientos st))) l in
    Ok (tt, {| plan_cuentas := plan_cuentas st; proveedores := proveedores st;
               documentos := documentos st; asientos := asientos st;
               movimientos := movimientos st ++ rows |}).

(** ** logica_contable.py *)

(** [_obtener_cuenta_por_nombre]: the first account with that name. *)
Definition primera_cuenta (cuentas : list PlanCuentas.t) (nombre : string)
  : option PlanCuentas.t :=
  find (fun c => String.eqb (PlanCuentas.nombre c) nombre) cuentas.

Definition _obtener_cuenta_por_nombre (nombre : string) : sesion PlanCuentas.t :=
  fun st =>
    match primera_cuenta (plan_cuentas st) nombre with
    | Some c => Ok (c, st)
    | None => Err (ValueError ("No existe la cuenta obligatoria: " ++ nombre))
    end.

Definition nombre_gastos_default : string := "Gastos Generales (Por Clasificar)".
Definition nombre_iva : string := "IVA Crédito Fiscal".
Definition nombre_proveedores : string := "Proveedores por Pagar".

(** [TblDocumentos( **documento)]: the declarative constructor refuses a
    keyword that is not a column, and [razon_social] is not one. *)
Definition tbl_documentos (d : documento) : resultado (positive -> Documento.t) :=
  match razon_social d with
  | Some _ => Err (TypeError "'razon_social' is an invalid keyword argument for TblDocumentos")
  | None => Ok (fun id => {| Documento.id := id; Documento.folio := folio d;
                             Documento.tipo_dte := tipo_dte d;
                             Documento.fecha_emision := fecha_emision d;
                             Documento.rut_emisor := rut_emisor d;
                             Documento.monto_neto := monto_neto d;
                             Documento.monto_iva := monto_iva d;
                             Documento.monto_total := monto_total d;
                             Documento.url_archivo := url_archivo d |})
  end.

(** The dict returned on success. *)
Inductive res_post : Type :=
| Posted (documento_id asiento_id : positive) : res_post
| Duplicado (motivo : string) : res_post.

Definition glosa_base (d : documento) (p : Proveedor.t) : string :=
  "Compra DTE " ++ tipo_dte d ++ " Folio " ++ folio d ++ " - " ++ Proveedor.razon_social p.

(** The three movement lines of a purchase. [neto], [iva] and [total]
    are [documento["monto_neto"]], [documento["monto_iva"]] and
    [documento["monto_total"]], which the document flush has just stored
    (so none is NaN). *)
Definition movimientos_compra (d : documento) (p : Proveedor.t) (neto iva total : Q)
  (id_asiento id_cuenta_gasto id_iva id_proveedores : positive) : list nuevo_mov :=
  let gb := glosa_base d p in
  [ mk_nuevo_mov id_asiento id_cuenta_gasto neto 0 (gb ++ " | Gasto Neto");
    mk_nuevo_mov id_asiento id_iva iva 0 (gb ++ " | IVA Crédito Fiscal");
    mk_nuevo_mov id_asiento id_proveedores 0 total (gb ++ " | Proveedores por Pagar") ].

(** The supplier [generar_asiento] creates for an unknown issuer. *)
Definition nuevo_proveedor (d : documento) (cuenta_gastos_default : PlanCuentas.t) : Proveedor.t :=
  {| Proveedor.rut := rut_emisor d;
     Proveedor.razon_social :=
       match razon_social d with Some s => s | None => "Proveedor sin nombre" end;
     Proveedor.cuenta_contable_default_id := Some (PlanCuentas.id_cuenta cuenta_gastos_default) |}.

(** [proveedor.cuenta_contable_default_id or cuenta_gastos_default.id_cuenta]
    (rowids are never 0, so a set id is truthy). *)
Definition cuenta_gasto (p : Proveedor.t) (cuenta_gastos_default : PlanCuentas.t) : positive :=
  match Proveedor.cuenta_contable_default_id p with
  | Some i => i | None => PlanCuentas.id_cuenta cuenta_gastos_default end.

(** The body of the transaction of [generar_asiento]. *)
Definition cuerpo_generar_asiento (d : documento) : sesion res_post :=
  prov0 <~ get_proveedor (rut_emisor d) ;;
  cuenta_gastos_default <~ _obtener_cuenta_por_nombre nombre_gastos_default ;;
  cuenta_iva <~ _obtener_cuenta_por_nombre nombre_iva ;;
  cuenta_proveedores <~ _obtener_cuenta_por_nombre nombre_proveedores ;;
  proveedor <~ (match prov0 with
                | Some p => ret_s p
                | None =>
                    let p := nuevo_proveedor d cuenta_gastos_default in
                    _ <~ flush_proveedor p ;; ret_s p
                end) ;;
  let id_cuenta_gasto := cuenta_gasto proveedor cuenta_gastos_default in
  mk_row <~ lift_s (tbl_documentos d) ;;
  flushed <~ flush_documento mk_row ;;
  let '(doc_db, (neto, iva, total)) := flushed in
  asiento <~ flush_asiento (Documento.id doc_db) (fecha_emision d) ;;
  _ <~ add_all_movimientos
         (movimientos_compra d proveedor neto iva total (Asiento.id asiento) id_cuenta_gasto
            (PlanCuentas.id_cuenta cuenta_iva) (PlanCuentas.id_cuenta cuenta_proveedores)) ;;
  ret_s (Posted (Documento.id doc_db) (Asiento.id asiento)).

Definition generar_asiento (d : documento) (st : store) : resultado res_post * store :=
  begin_tx (cuerpo_generar_asiento d) st.

Definition motivo_duplicado : string := "Documento ya existe (folio, rut, tipo_dte)".

Definition procesar_documento_con_control_duplicado (d : documento) (st : store)
  : resultado res_post * store :=
  match generar_asiento d st with
  | (Err (IntegrityError _), st') => (Ok (Duplicado motivo_duplicado), st')
  | r => r
  end.

(** ** db_config.py: seeding the chart of accounts *)

Definition con_plan (st : store) (cuentas : list PlanCuentas.t) : store :=
  mk_store cuentas (proveedores st) (documentos st) (asientos st) (movimientos st).

(** [_upsert_cuenta]: its own session; the account is added (with the next
    rowid) and committed only when no account has that code. An existing
    account is left as it is. *)
Definition _upsert_cuenta (codigo nombre tipo : string) (st : store) : store :=
  match find (fun c => String.eqb (PlanCuentas.codigo c) codigo) (plan_cuentas st) with
  | Some _ => st
  | None =>
      con_plan st (plan_cuentas st ++
        [PlanCuentas.mk (next_id (map PlanCuentas.id_cuenta (plan_cuentas st))) codigo nombre tipo])
  end.

(** A row of [csv.DictReader]: the dict from the header to the row's
    fields (its keys are unique). *)
Definition fila_csv : Type := list (string * string).

(** [row[k]]: [None] is the [KeyError]. *)
Definition csv_get (row : fila_csv) (k : string) : option string :=
  option_map snd (find (fun kv => String.eqb (fst kv) k) row).

(** The loop of [seed_plan_cuentas]. The arguments of [_upsert_cuenta] are
    read left to right; a missing column raises [KeyError] ([Some key]),
    the rows already upserted stay committed. *)
Fixpoint sembrar_filas (filas : list fila_csv) (st : store) : option string * store :=
  match filas with
  | [] => (None, st)
  | row :: resto =>
      match csv_get row "codigo" with
      | None => (Some "codigo", st)
      | Some codigo =>
          match csv_get row "nombre" with
          | None => (Some "nombre", st)
          | Some nombre =>
              match csv_get row "tipo" with
              | None => (Some "tipo", st)
              | Some tipo => sembrar_filas resto (_upsert_cuenta codigo nombre tipo st)
              end
          end
      end
  end.

(** [seed_plan_cuentas]: [None] when [PLAN_CUENTAS_CSV] does not exist. *)
Definition seed_plan_cuentas (csv : option (list fila_csv)) (st : store) : option string * store :=
  match csv with
  | None => (None, st)
  | Some filas => sembrar_filas filas st
  end.

(** ** app.py: the batch upload (tab "Carga Inteligente") *)

(** A log entry: [{"archivo", "estado", "detalle"}]. *)
Definition entrada_log : Type := string * string * string.

Definition entrada_archivo (e : entrada_log) : string := let '(a, _, _) := e in a.
Definition entrada_estado (e : entrada_log) : string := let '(_, s, _) := e in s.

(** The loop's variables and the database it writes through. *)
Record estado_carga : Type := mk_carga {
  insertados : nat;
  duplicados : nat;
  errores : nat;
  log : list entrada_log;
  bd : store
}.

(** One iteration: parse, then post in the wrapper's own transaction;
    [except Exception] catches what either raises. [res.get("motivo", "OK")]
    is ["OK"] for a posted record. *)
Definition paso_carga fl sp parse (ec : estado_carga) (archivo : list Byte.byte * string)
  : estado_carga :=
  let '(contenido, nombre) := archivo in
  let con_error exc st :=
    mk_carga (insertados ec) (duplicados ec) (S (errores ec))
      (log ec ++ [(nombre, "error", str_exc exc)]) st in
  match parsear_dte_xml fl sp parse contenido nombre with
  | Err exc => con_error exc (bd ec)
  | Ok documento =>
      match procesar_documento_con_control_duplicado documento (bd ec) with
      | (Err exc, st') => con_error exc st'
      | (Ok (Posted _ _), st') =>
          mk_carga (S (insertados ec)) (duplicados ec) (errores ec)
            (log ec ++ [(nombre, "insertado", "OK")]) st'
      | (Ok (Duplicado motivo), st') =>
          mk_carga (insertados ec) (S (duplicados ec)) (errores ec)
            (log ec ++ [(nombre, "duplicado", motivo)]) st'
      end
  end.

(** The loop over the uploaded files, from zero counters and an empty log. *)
Definition cargar_lote fl sp parse (archivos : list (list Byte.byte * string)) (st : store)
  : estado_carga :=
  fold_left (paso_carga fl sp parse) archivos (mk_carga 0 0 0 [] st).

(** ** app.py: supplier classification (tab "Clasificacion") *)

(** [f"{c.codigo} - {c.nombre}"] *)
Definition etiqueta (c : PlanCuentas.t) : string :=
  PlanCuentas.codigo c ++ " - " ++ PlanCuentas.nombre c.

(** [order_by(TblPlanCuentas.codigo)]: SQLite's binary text order,
    [String.compare]; an insertion sort. *)
Fixpoint insertar_cuenta (c : PlanCuentas.t) (l : list PlanCuentas.t) : list PlanCuentas.t :=
  match l with
  | [] => [c]
  | x :: r =>
      match String.compare (PlanCuentas.codigo c) (PlanCuentas.codigo x) with
      | Gt => x :: insertar_cuenta c r
      | _ => c :: l
      end
  end.

Definition ordenar_cuentas (l : list PlanCuentas.t) : list PlanCuentas.t :=
  fold_right insertar_cuenta [] l.

(** [map_cuentas.get(i)]: a dict comprehension, the last account with
    that id wins. *)
Definition map_cuentas (cuentas : list PlanCuentas.t) (i : positive) : option string :=
  fold_left (fun acc c => if Pos.eqb (PlanCuentas.id_cuenta c) i then Some (etiqueta c) else acc)
    cuentas None.

(** [opciones.get(label)]: the last account with that label wins;
    [None] is the [KeyError] of [opciones[label]]. *)
Definition opciones (cuentas : list PlanCuentas.t) (label : string) : option positive :=
  fold_left (fun acc c => if String.eqb (etiqueta c) label then Some (PlanCuentas.id_cuenta c) else acc)
    cuentas None.

Definition sin_asignar : string := "Sin asignar".

(** [map_cuentas.get(p.cuenta_contable_default_id, "Sin asignar")] *)
Definition etiqueta_proveedor (cuentas : list PlanCuentas.t) (p : Proveedor.t) : string :=
  match Proveedor.cuenta_contable_default_id p with
  | Some i => match map_cuentas cuentas i with Some l => l | None => sin_asignar end
  | None => sin_asignar
  end.

(** A row of the editor: [rut], [razon_social], [nueva_cuenta]. *)
Definition fila_editor : Type := string * string * string.

(** [df_prov] before any edit. *)
Definition tabla_proveedores (cuentas : list PlanCuentas.t) (provs : list Proveedor.t)
  : list fila_editor :=
  map (fun p => (Proveedor.rut p, Proveedor.razon_social p, etiqueta_proveedor cuentas p)) provs.

Definition con_cuenta (p : Proveedor.t) (i : positive) : Proveedor.t :=
  Proveedor.mk (Proveedor.rut p) (Proveedor.razon_social p) (Some i).

(** [prov.cuenta_contable_default_id = i] on the session's object for the
    primary key [rut] (at most one row has it). *)
Definition fijar_cuenta (rut : string) (i : positive) (provs : list Proveedor.t) : list Proveedor.t :=
  map (fun p => if String.eqb (Proveedor.rut p) rut then con_cuenta p i else p) provs.

(** The loop of the save button; [inl label] is the [KeyError]. *)
Fixpoint guardar_filas (cuentas : list PlanCuentas.t) (filas : list fila_editor)
  (provs : list Proveedor.t) : string + list Proveedor.t :=
  match filas with
  | [] => inr provs
  | (rut, _, label) :: resto =>
      match find (fun p => String.eqb (Proveedor.rut p) rut) provs with
      | None => guardar_filas cuentas resto provs
      | Some _ =>
          match opciones cuentas label with
          | None => inl label
          | Some i => guardar_filas cuentas resto (fijar_cuenta rut i provs)
          end
      end
  end.

Definition con_proveedores (st : store) (provs : list Proveedor.t) : store :=
  mk_store (plan_cuentas st) provs (documentos st) (asientos st) (movimientos st).

(** [with SessionLocal.begin()]: commit, or rollback on the [KeyError]. *)
Definition guardar_clasificacion (cuentas : list PlanCuentas.t) (filas : list fila_editor)
  (st : store) : option string * store :=
  match guardar_filas cuentas filas (proveedores st) with
  | inl label => (Some label, st)
  | inr provs => (None, con_proveedores st provs)
  end.

(** ** Instances of the library functions, for concrete runs *)

Definition digito (c : ascii) : option Z :=
  let n := nat_of_ascii c in
  if Nat.leb 48 n && Nat.leb n 57 then Some (Z.of_nat (n - 48)) else None.

(** Digits in base 10 with a count of them, for a run of [n] digits. *)
Fixpoint leer_digitos (s : string) (acc : Z) (k : nat) : Z * nat * string :=
  match s with
  | String c r => match digito c with
                  | Some d => leer_digitos r (acc * 10 + d) (S k)
                  | None => (acc, k, s)
                  end
  | EmptyString => (acc, k, s)
  end.

Definition bisiesto (y : Z) : bool :=
  (Z.eqb (Z.modulo y 4) 0 && negb (Z.eqb (Z.modulo y 100) 0)) || Z.eqb (Z.modulo y 400) 0.

Definition dias_mes (y m : Z) : Z :=
  if Z.eqb m 2 then (if bisiesto y then 29 else 28)
  else if Z.eqb m 4 || Z.eqb m 6 || Z.eqb m 9 || Z.eqb m 11 then 30 else 31.

(** [strptime(s, "%Y-%m-%d")] on dates written with 4, 2 and 2 digits. *)
Definition strptime_iso (s : string) : option fecha :=
  match leer_digitos s 0 0 with
  | (y, 4%nat, String "-" r1) =>
      match leer_digitos r1 0 0 with
      | (m, 2%nat, String "-" r2) =>
          match leer_digitos r2 0 0 with
          | (d, 2%nat, EmptyString) =>
              if (1 <=? m)%Z && (m <=? 12)%Z && (1 <=? d)%Z && (d <=? dias_mes y m)%Z
              then Some (mk_fecha y m d) else None
          | _ => None
          end
      | _ => None
      end
  | _ => None
  end.

(** ASCII lower case. *)
Definition minuscula (c : ascii) : ascii :=
  let n := nat_of_ascii c in
  if Nat.leb 65 n && Nat.leb n 90 then ascii_of_nat (n + 32) else c.

Definition minusculas (s : string) : string :=
  string_of_list_ascii (map minuscula (list_ascii_of_string s)).

(** [float(s)] on unsigned integers and decimals [ddd] or [ddd.ddd], and
    on [nan] in any case with an optional sign, surrounded by whitespace. *)
Definition float_decimal (s : string) : option flotante :=
  let t := py_strip s in
  if existsb (String.eqb (minusculas t)) ["nan"; "+nan"; "-nan"] then Some NaN else
  match leer_digitos t 0 0 with
  | (n, S _, EmptyString) => Some (Fin (inject_Z n))
  | (n, S _, String "." r) =>
      match leer_digitos r 0 0 with
      | (f, k, EmptyString) =>
          Some (Fin (inject_Z n + inject_Z f / inject_Z (10 ^ Z.of_nat k))%Q)
      | _ => None
      end
  | _ => None
  end.

(** ** Sample data *)

Definition cuenta_gastos : PlanCuentas.t := PlanCuentas.mk 1 "5101" nombre_gastos_default "Gasto".
Definition cuenta_iva_cf : PlanCuentas.t := PlanCuentas.mk 2 "1107" nombre_iva "Activo".
Definition cuenta_prov : PlanCuentas.t := PlanCuentas.mk 3 "2101" nombre_proveedores "Pasivo".
Definition cuenta_arriendo : PlanCuentas.t := PlanCuentas.mk 4 "5102" "Arriendos" "Gasto".

Definition st_sembrado : store :=
  mk_store [cuenta_gastos; cuenta_iva_cf; cuenta_prov; cuenta_arriendo] [] [] [] [].

(** The tree [xmltodict.parse] builds for the scenario document of the
    specification (folio 123, type 33, 2024-05-01, issuer 76543210-1 Acme,
    totals 1000 + 190 = 1190). *)
Definition encabezado_acme (totales : pyval) : pyval :=
  PDict [("IdDoc", PDict [("TipoDTE", PStr "33"); ("Folio", PStr "123");
                          ("FchEmis", PStr "2024-05-01")]);
         ("Emisor", PDict [("RUTEmisor", PStr "76543210-1"); ("RznSoc", PStr "Acme")]);
         ("Totales", totales)].

Definition totales_acme : pyval :=
  PDict [("MntNeto", PStr "1000"); ("IVA", PStr "190"); ("MntTotal", PStr "1190")].

Definition arbol_dte (enc : pyval) : pyval :=
  PDict [("DTE", PDict [("Documento", PDict [("Encabezado", enc)])])].

Definition arbol_acme : pyval := arbol_dte (encabezado_acme totales_acme).

(** The record the normalizer returns for the scenario. *)
Definition doc_acme : documento :=
  {| folio := "123"; tipo_dte := "33"; fecha_emision := mk_fecha 2024 5 1;
     rut_emisor := "76543210-1"; razon_social := Some "Acme";
     monto_neto := Fin 1000; monto_iva := Fin 190; monto_total := Fin 1190;
     url_archivo := "acme.xml" |}.

(** The same record without the [razon_social] key. *)
Definition doc_acme_sin_rzn : documento :=
  {| folio := "123"; tipo_dte := "33"; fecha_emision := mk_fecha 2024 5 1;
     rut_emisor := "76543210-1"; razon_social := None;
     monto_neto := Fin 1000; monto_iva := Fin 190; monto_total := Fin 1190;
     url_archivo := "acme.xml" |}.

(** ** Properties of the posting engine *)

(** Case analysis on the innermost [match] of a hypothesis. *)
Ltac abrir_match H :=
  match type of H with
  | context [match ?x with _ => _ end] =>
      lazymatch x with
      | context [match _ with _ => _ end] => fail
      | _ => let E := fresh "E" in destruct x eqn:E
      end
  end.

Ltac desarmar H :=
  repeat (cbn -[next_id movimientos_compra asignar_ids nuevo_proveedor cuenta_gasto
                primera_cuenta buscar_proveedor String.eqb] in H;
          first [discriminate H | abrir_match H]).

(** The supplier used when posting [d] on [st]. *)
Definition proveedor_efectivo (d : documento) (st : store) (cg : PlanCuentas.t) : Proveedor.t :=
  match buscar_proveedor st (rut_emisor d) with Some p => p | None => nuevo_proveedor d cg end.

Lemma sql_real_some (x : flotante) (q : Q) : sql_real x = Some q -> x = Fin q.
Proof. destruct x; cbn; congruence. Qed.

(** Shape of a successful post. *)
Lemma generar_asiento_exito (d : documento) (st st' : store) (r : res_post) :
  generar_asiento d st = (Ok r, st') ->
  exists cg ci cp did aid neto iva total,
    primera_cuenta (plan_cuentas st) nombre_gastos_default = Some cg /\
    primera_cuenta (plan_cuentas st) nombre_iva = Some ci /\
    primera_cuenta (plan_cuentas st) nombre_proveedores = Some cp /\
    razon_social d = None /\
    monto_neto d = Fin neto /\ monto_iva d = Fin iva /\ monto_total d = Fin total /\
    r = Posted did aid /\
    plan_cuentas st' = plan_cuentas st /\
    proveedores st' = (proveedores st ++
      match buscar_proveedor st (rut_emisor d) with
      | Some _ => [] | None => [nuevo_proveedor d cg] end)%list /\
    movimientos st' = (movimientos st ++
      asignar_ids (next_id (map Movimiento.id (movimientos st)))
        (movimientos_compra d (proveedor_efectivo d st cg) neto iva total aid
           (cuenta_gasto (proveedor_efectivo d st cg) cg)
           (PlanCuentas.id_cuenta ci) (PlanCuentas.id_cuenta cp)))%list.
Proof.
  intros H.
  unfold generar_asiento, begin_tx, cuerpo_generar_asiento, bind_s, ret_s, lift_s,
    get_proveedor, _obtener_cuenta_por_nombre, tbl_documentos, flush_proveedor,
    flush_documento, flush_asiento, add_all_movimientos, proveedor_efectivo in *.
  desarmar H.
  all: repeat match goal with E : sql_real _ = Some _ |- _ => apply sql_real_some in E end.
  all: injection H as <- <-; do 8 eexists; repeat split; try eassumption;
       cbn; rewrite ?app_nil_r; reflexivity.
Qed.

Definition suma_debe (l : list Movimiento.t) : Q :=
  fold_left (fun acc m => acc + Movimiento.debe m)%Q l 0%Q.

Definition suma_haber (l : list Movimiento.t) : Q :=
  fold_left (fun acc m => acc + Movimiento.haber m)%Q l 0%Q.

Lemma find_app {A} (f : A -> bool) (l1 l2 : list A) :
  find f (l1 ++ l2) = match find f l1 with Some x => Some x | None => find f l2 end.
Proof.
  induction l1 as [|a l1 IH]; simpl; [reflexivity|].
  destruct (f a); [reflexivity | exact IH].
Qed.

(** Store after posting the scenario record without its [razon_social]
    key on the seeded chart of accounts. *)
Definition st_acme : store := snd (generar_asiento doc_acme_sin_rzn st_sembrado).

(** C1: a successful post of a record with net + tax = total writes
    exactly three movements for its ledger entry: debit of the expense
    account for the net amount, debit of the tax-credit account for the
    tax, credit of the payables account for the total; debits and credits
    both sum to the total. (The record's amounts are floats; [neto], [iva]
    and [total] are their values. A NaN amount never satisfies the
    equation, nor can it be posted.) *)
Theorem generar_asiento_partida_doble (d : documento) (st st' : store) (r : res_post)
  (neto iva total : Q) :
  monto_neto d = Fin neto -> monto_iva d = Fin iva -> monto_total d = Fin total ->
  (neto + iva == total)%Q ->
  generar_asiento d st = (Ok r, st') ->
  exists did aid cg ci cp nuevos,
    r = Posted did aid /\
    primera_cuenta (plan_cuentas st) nombre_gastos_default = Some cg /\
    primera_cuenta (plan_cuentas st) nombre_iva = Some ci /\
    primera_cuenta (plan_cuentas st) nombre_proveedores = Some cp /\
    movimientos st' = (movimientos st ++ nuevos)%list /\
    length nuevos = 3%nat /\
    Forall (fun m => Movimiento.id_asiento m = aid) nuevos /\
    map Movimiento.id_cuenta nuevos =
      [cuenta_gasto (proveedor_efectivo d st cg) cg;
       PlanCuentas.id_cuenta ci; PlanCuentas.id_cuenta cp] /\
    map Movimiento.debe nuevos = [neto; iva; 0%Q] /\
    map Movimiento.haber nuevos = [0%Q; 0%Q; total] /\
    (suma_debe nuevos == total)%Q /\
    (suma_haber nuevos == total)%Q.
Proof.
  intros En Ei Et Hbal H.
  destruct (generar_asiento_exito d st st' r H)
    as (cg & ci & cp & did & aid & n & i & t & Eg & Ei' & Ep & _ & En' & Ei'' & Et'
        & -> & _ & _ & Emov).
  rewrite En in En'. rewrite Ei in Ei''. rewrite Et in Et'.
  injection En' as <-. injection Ei'' as <-. injection Et' as <-.
  exists did, aid, cg, ci, cp.
  eexists; split; [reflexivity|].
  do 4 (split; [eassumption|]).
  cbn. repeat split; try reflexivity.
  - repeat constructor.
  - unfold suma_debe; cbn. rewrite <- Hbal. ring.
  - unfold suma_haber; cbn. ring.
Qed.

Lemma generar_asiento_partida_doble_witness :
  monto_neto doc_acme_sin_rzn = Fin 1000 /\ monto_iva doc_acme_sin_rzn = Fin 190 /\
  monto_total doc_acme_sin_rzn = Fin 1190 /\
  (1000 + 190 == 1190)%Q /\
  generar_asiento doc_acme_sin_rzn st_sembrado = (Ok (Posted 1 1), st_acme) /\
  exists did aid cg ci cp nuevos,
    Posted 1 1 = Posted did aid /\
    primera_cuenta (plan_cuentas st_sembrado) nombre_gastos_default = Some cg /\
    primera_cuenta (plan_cuentas st_sembrado) nombre_iva = Some ci /\
    primera_cuenta (plan_cuentas st_sembrado) nombre_proveedores = Some cp /\
    movimientos st_acme = (movimientos st_sembrado ++ nuevos)%list /\
    length nuevos = 3%nat /\
    Forall (fun m => Movimiento.id_asiento m = aid) nuevos /\
    map Movimiento.id_cuenta nuevos =
      [cuenta_gasto (proveedor_efectivo doc_acme_sin_rzn st_sembrado cg) cg;
       PlanCuentas.id_cuenta ci; PlanCuentas.id_cuenta cp] /\
    map Movimiento.debe nuevos = [1000; 190; 0%Q] /\
    map Movimiento.haber nuevos = [0%Q; 0%Q; 1190] /\
    (suma_debe nuevos == 1190)%Q /\
    (suma_haber nuevos == 1190)%Q.
Proof.
  assert (Hn : monto_neto doc_acme_sin_rzn = Fin 1000) by reflexivity.
  assert (Hi : monto_iva doc_acme_sin_rzn = Fin 190) by reflexivity.
  assert (Ht : monto_total doc_acme_sin_rzn = Fin 1190) by reflexivity.
  assert (Hb : (1000 + 190 == 1190)%Q) by (vm_compute; reflexivity).
  assert (Hg : generar_asiento doc_acme_sin_rzn st_sembrado = (Ok (Posted 1 1), st_acme))
    by (vm_compute; reflexivity).
  split; [exact Hn|]. split; [exact Hi|]. split; [exact Ht|].
  split; [exact Hb|]. split; [exact Hg|].
  exact (generar_asiento_partida_doble doc_acme_sin_rzn st_sembrado st_acme (Posted 1 1)
           1000 190 1190 Hn Hi Ht Hb Hg).
Defined.

(** C9: every movement a successful post writes has a zero side: the
    expense and tax-credit lines carry credit 0, the payables line
    carries debit 0. *)
Theorem generar_asiento_un_lado_cero (d : documento) (st st' : store) (r : res_post) :
  generar_asiento d st = (Ok r, st') ->
  exists m1 m2 m3,
    movimientos st' = (movimientos st ++ [m1; m2; m3])%list /\
    Movimiento.haber m1 = 0%Q /\ Movimiento.haber m2 = 0%Q /\ Movimiento.debe m3 = 0%Q /\
    Forall (fun m => Movimiento.debe m = 0%Q \/ Movimiento.haber m = 0%Q) [m1; m2; m3].
Proof.
  intros H.
  destruct (generar_asiento_exito d st st' r H)
    as (cg & ci & cp & did & aid & n & i & t & _ & _ & _ & _ & _ & _ & _ & _ & _ & _ & Emov).
  rewrite Emov. cbn. do 3 eexists. split; [reflexivity|].
  cbn. repeat split.
  repeat apply Forall_cons; try apply Forall_nil; cbn; auto.
Qed.

Lemma generar_asiento_un_lado_cero_witness :
  generar_asiento doc_acme_sin_rzn st_sembrado = (Ok (Posted 1 1), st_acme) /\
  exists m1 m2 m3,
    movimientos st_acme = (movimientos st_sembrado ++ [m1; m2; m3])%list /\
    Movimiento.haber m1 = 0%Q /\ Movimiento.haber m2 = 0%Q /\ Movimiento.debe m3 = 0%Q /\
    Forall (fun m => Movimiento.debe m = 0%Q \/ Movimiento.haber m = 0%Q) [m1; m2; m3].
Proof.
  assert (Hg : generar_asiento doc_acme_sin_rzn st_sembrado = (Ok (Posted 1 1), st_acme))
    by (vm_compute; reflexivity).
  split; [exact Hg|].
  exact (generar_asiento_un_lado_cero doc_acme_sin_rzn st_sembrado st_acme (Posted 1 1) Hg).
Defined.

(** The seeded store where supplier 76543210-1 is classified to account 4. *)
Definition st_reclasificado : store :=
  mk_store [cuenta_gastos; cuenta_iva_cf; cuenta_prov; cuenta_arriendo]
    [Proveedor.mk "76543210-1" "Acme" (Some 4%positive)] [] [] [].

Definition st_acme_reclasificado : store :=
  snd (generar_asiento doc_acme_sin_rzn st_reclasificado).

(** C4: the expense line of a successful post debits the net amount to the
    supplier's default account when it has one, to the fallback expense
    account otherwise; an issuer unknown before the post is stored as a
    supplier whose default is the fallback expense account. *)
Theorem generar_asiento_cuenta_proveedor (d : documento) (st st' : store) (r : res_post) :
  generar_asiento d st = (Ok r, st') ->
  exists cg m1 resto,
    primera_cuenta (plan_cuentas st) nombre_gastos_default = Some cg /\
    movimientos st' = (movimientos st ++ m1 :: resto)%list /\
    Fin (Movimiento.debe m1) = monto_neto d /\
    Movimiento.id_cuenta m1 =
      match buscar_proveedor st (rut_emisor d) with
      | Some p =>
          match Proveedor.cuenta_contable_default_id p with
          | Some a => a
          | None => PlanCuentas.id_cuenta cg
          end
      | None => PlanCuentas.id_cuenta cg
      end /\
    (buscar_proveedor st (rut_emisor d) = None ->
     exists p, buscar_proveedor st' (rut_emisor d) = Some p /\
               Proveedor.rut p = rut_emisor d /\
               Proveedor.cuenta_contable_default_id p = Some (PlanCuentas.id_cuenta cg)).
Proof.
  intros H.
  destruct (generar_asiento_exito d st st' r H)
    as (cg & ci & cp & did & aid & n & i & t & Eg & _ & _ & _ & En & _ & _ & _ & _ & Eprov & Emov).
  exists cg. rewrite Emov. cbn. do 2 eexists.
  split; [exact Eg|]. split; [reflexivity|]. split; [symmetry; exact En|].
  unfold proveedor_efectivo, cuenta_gasto.
  split.
  - destruct (buscar_proveedor st (rut_emisor d)); reflexivity.
  - intros Enone. rewrite Enone in Eprov.
    exists (nuevo_proveedor d cg).
    unfold buscar_proveedor. rewrite Eprov, find_app.
    unfold buscar_proveedor in Enone. rewrite Enone. cbn.
    rewrite String.eqb_refl. repeat split.
Qed.

Lemma generar_asiento_cuenta_proveedor_witness :
  generar_asiento doc_acme_sin_rzn st_reclasificado
    = (Ok (Posted 1 1), st_acme_reclasificado) /\
  exists cg m1 resto,
    primera_cuenta (plan_cuentas st_reclasificado) nombre_gastos_default = Some cg /\
    movimientos st_acme_reclasificado = (movimientos st_reclasificado ++ m1 :: resto)%list /\
    Fin (Movimiento.debe m1) = monto_neto doc_acme_sin_rzn /\
    Movimiento.id_cuenta m1 =
      match buscar_proveedor st_reclasificado (rut_emisor doc_acme_sin_rzn) with
      | Some p =>
          match Proveedor.cuenta_contable_default_id p with
          | Some a => a
          | None => PlanCuentas.id_cuenta cg
          end
      | None => PlanCuentas.id_cuenta cg
      end /\
    (buscar_proveedor st_reclasificado (rut_emisor doc_acme_sin_rzn) = None ->
     exists p, buscar_proveedor st_acme_reclasificado (rut_emisor doc_acme_sin_rzn) = Some p /\
               Proveedor.rut p = rut_emisor doc_acme_sin_rzn /\
               Proveedor.cuenta_contable_default_id p = Some (PlanCuentas.id_cuenta cg)).
Proof.
  assert (Hg : generar_asiento doc_acme_sin_rzn st_reclasificado
                 = (Ok (Posted 1 1), st_acme_reclasificado))
    by (vm_compute; reflexivity).
  split; [exact Hg|].
  exact (generar_asiento_cuenta_proveedor doc_acme_sin_rzn st_reclasificado
           st_acme_reclasificado (Posted 1 1) Hg).
Defined.

(** The expense line in the reclassified run debits account 4. *)
Example cuenta_reclasificada_4 :
  map Movimiento.id_cuenta (movimientos st_acme_reclasificado) = [4%positive; 2%positive; 3%positive].
Proof. vm_compute. reflexivity. Qed.

Definition msg_sin_cuenta (nombre : string) : string :=
  "No existe la cuenta obligatoria: " ++ nombre.

Definition cuentas_obligatorias : list string :=
  [nombre_gastos_default; nombre_iva; nombre_proveedores].

(** C3: when one of the three required accounts is missing, posting fails
    with the [ValueError] naming the first missing one, before any row is
    written (the store is left as it was), and the duplicate-control
    wrapper re-raises that same error. *)
Theorem generar_asiento_sin_cuenta (d : documento) (st : store) (nombre : string) :
  In nombre cuentas_obligatorias ->
  primera_cuenta (plan_cuentas st) nombre = None ->
  exists faltante,
    In faltante cuentas_obligatorias /\
    primera_cuenta (plan_cuentas st) faltante = None /\
    cuerpo_generar_asiento d st = Err (ValueError (msg_sin_cuenta faltante)) /\
    generar_asiento d st = (Err (ValueError (msg_sin_cuenta faltante)), st) /\
    procesar_documento_con_control_duplicado d st
      = (Err (ValueError (msg_sin_cuenta faltante)), st).
Proof.
  intros Hin Hnone.
  unfold procesar_documento_con_control_duplicado, generar_asiento, begin_tx,
    cuerpo_generar_asiento, bind_s, get_proveedor, _obtener_cuenta_por_nombre.
  destruct (primera_cuenta (plan_cuentas st) nombre_gastos_default) eqn:Eg.
  2: { exists nombre_gastos_default. cbn. repeat split; auto. }
  destruct (primera_cuenta (plan_cuentas st) nombre_iva) eqn:Ei.
  2: { exists nombre_iva. cbn. repeat split; auto. }
  destruct (primera_cuenta (plan_cuentas st) nombre_proveedores) eqn:Ep.
  2: { exists nombre_proveedores. cbn. repeat split; auto. }
  exfalso. unfold cuentas_obligatorias in Hin.
  destruct Hin as [<-|[<-|[<-|[]]]]; congruence.
Qed.

Lemma generar_asiento_sin_cuenta_witness :
  In nombre_proveedores cuentas_obligatorias /\
  primera_cuenta [cuenta_gastos; cuenta_iva_cf] nombre_proveedores = None /\
  exists faltante,
    In faltante cuentas_obligatorias /\
    primera_cuenta [cuenta_gastos; cuenta_iva_cf] faltante = None /\
    cuerpo_generar_asiento doc_acme (mk_store [cuenta_gastos; cuenta_iva_cf] [] [] [] [])
      = Err (ValueError (msg_sin_cuenta faltante)) /\
    generar_asiento doc_acme (mk_store [cuenta_gastos; cuenta_iva_cf] [] [] [] [])
      = (Err (ValueError (msg_sin_cuenta faltante)),
         mk_store [cuenta_gastos; cuenta_iva_cf] [] [] [] []) /\
    procesar_documento_con_control_duplicado doc_acme
      (mk_store [cuenta_gastos; cuenta_iva_cf] [] [] [] [])
      = (Err (ValueError (msg_sin_cuenta faltante)),
         mk_store [cuenta_gastos; cuenta_iva_cf] [] [] [] []).
Proof.
  assert (Hin : In nombre_proveedores cuentas_obligatorias) by (cbn; tauto).
  assert (Hn : primera_cuenta [cuenta_gastos; cuenta_iva_cf] nombre_proveedores = None)
    by (vm_compute; reflexivity).
  split; [exact Hin|]. split; [exact Hn|].
  exact (generar_asiento_sin_cuenta doc_acme (mk_store [cuenta_gastos; cuenta_iva_cf] [] [] [] [])
           nombre_proveedores Hin Hn).
Defined.

Definition es_integridad (e : excepcion) : bool :=
  match e with IntegrityError _ => true | _ => false end.

Lemma find_none_existsb {A} (f : A -> bool) (l : list A) :
  find f l = None -> existsb f l = false.
Proof.
  induction l as [|a l IH]; cbn; [reflexivity|].
  destruct (f a); [discriminate | exact IH].
Qed.

(** The scenario record without [razon_social], its net amount NaN
    ([float("nan")], which [_safe_float] returns for the text "nan"). *)
Definition doc_neto_nan : documento :=
  {| folio := "123"; tipo_dte := "33"; fecha_emision := mk_fecha 2024 5 1;
     rut_emisor := "76543210-1"; razon_social := None;
     monto_neto := NaN; monto_iva := Fin 190; monto_total := Fin 1190;
     url_archivo := "acme.xml" |}.

(** C5 (defect): the wrapper catches every [IntegrityError], not only the
    violation of [uq_doc_folio_rut_tipo]. With the three required accounts
    present and no [razon_social] key, a record whose net amount is NaN
    makes the transaction raise the NOT NULL [IntegrityError] of the
    [monto_neto] column (SQLite binds a NaN as NULL) and roll back, and
    the wrapper reports it as a duplicate, whatever documents are
    stored. *)
Theorem control_duplicado_not_null (d : documento) (st : store) :
  primera_cuenta (plan_cuentas st) nombre_gastos_default <> None ->
  primera_cuenta (plan_cuentas st) nombre_iva <> None ->
  primera_cuenta (plan_cuentas st) nombre_proveedores <> None ->
  razon_social d = None ->
  monto_neto d = NaN ->
  generar_asiento d st = (Err (error_not_null "Tbl_Documentos.monto_neto"), st) /\
  procesar_documento_con_control_duplicado d st = (Ok (Duplicado motivo_duplicado), st).
Proof.
  intros Hg Hi Hp Hr Hn.
  assert (H : generar_asiento d st = (Err (error_not_null "Tbl_Documentos.monto_neto"), st)).
  { unfold generar_asiento, begin_tx, cuerpo_generar_asiento, bind_s, ret_s, lift_s,
      get_proveedor, _obtener_cuenta_por_nombre, tbl_documentos, flush_proveedor,
      flush_documento.
    destruct (primera_cuenta (plan_cuentas st) nombre_gastos_default); [|congruence].
    destruct (primera_cuenta (plan_cuentas st) nombre_iva); [|congruence].
    destruct (primera_cuenta (plan_cuentas st) nombre_proveedores); [|congruence].
    destruct (buscar_proveedor st (rut_emisor d)) eqn:Eb.
    - rewrite Hr. cbn. rewrite Hn. reflexivity.
    - unfold buscar_proveedor in Eb. apply find_none_existsb in Eb.
      cbn. rewrite Eb, Hr. cbn. rewrite Hn. reflexivity. }
  split; [exact H|].
  unfold procesar_documento_con_control_duplicado. rewrite H. reflexivity.
Qed.

Lemma control_duplicado_not_null_witness :
  primera_cuenta (plan_cuentas st_sembrado) nombre_gastos_default <> None /\
  primera_cuenta (plan_cuentas st_sembrado) nombre_iva <> None /\
  primera_cuenta (plan_cuentas st_sembrado) nombre_proveedores <> None /\
  razon_social doc_neto_nan = None /\
  monto_neto doc_neto_nan = NaN /\
  generar_asiento doc_neto_nan st_sembrado
    = (Err (error_not_null "Tbl_Documentos.monto_neto"), st_sembrado) /\
  procesar_documento_con_control_duplicado doc_neto_nan st_sembrado
    = (Ok (Duplicado motivo_duplicado), st_sembrado).
Proof.
  assert (H1 : primera_cuenta (plan_cuentas st_sembrado) nombre_gastos_default <> None)
    by (vm_compute; discriminate).
  assert (H2 : primera_cuenta (plan_cuentas st_sembrado) nombre_iva <> None)
    by (vm_compute; discriminate).
  assert (H3 : primera_cuenta (plan_cuentas st_sembrado) nombre_proveedores <> None)
    by (vm_compute; discriminate).
  assert (H4 : razon_social doc_neto_nan = None) by reflexivity.
  assert (H5 : monto_neto doc_neto_nan = NaN) by reflexivity.
  split; [exact H1|]. split; [exact H2|]. split; [exact H3|].
  split; [exact H4|]. split; [exact H5|].
  exact (control_duplicado_not_null doc_neto_nan st_sembrado H1 H2 H3 H4 H5).
Defined.

(** In that run no document is stored at all, so no stored document has
    the record's key: the reported duplicate does not exist. *)
Example neto_nan_sin_duplicado :
  documentos st_sembrado = [] /\
  existsb (fun x => misma_clave x (folio doc_neto_nan) (rut_emisor doc_neto_nan)
                      (tipo_dte doc_neto_nan)) (documentos st_sembrado) = false.
Proof. split; reflexivity. Qed.

(** The normalizer returns that amount for the text "nan". *)
Example safe_float_nan :
  _safe_float float_decimal (PStr "nan") = NaN /\ _safe_float float_decimal (PStr " NaN ") = NaN.
Proof. split; vm_compute; reflexivity. Qed.

(** The uniqueness violation itself is reported the same way: the wrapper
    does not tell the two [IntegrityError]s apart. *)
Example duplicado_unico_mismo_resultado :
  procesar_documento_con_control_duplicado doc_acme_sin_rzn st_acme
    = (Ok (Duplicado motivo_duplicado), st_acme).
Proof. vm_compute. reflexivity. Qed.

(** A record carrying the [razon_social] key is never posted: the
    transaction always raises (a missing account or the constructor's
    [TypeError]), never an [IntegrityError], and rolls back. *)
Lemma generar_asiento_con_razon_social (d : documento) (st : store) (s : string) :
  razon_social d = Some s ->
  exists e, es_integridad e = false /\ generar_asiento d st = (Err e, st).
Proof.
  intros Hr.
  unfold generar_asiento, begin_tx, cuerpo_generar_asiento, bind_s, ret_s, lift_s,
    get_proveedor, _obtener_cuenta_por_nombre, tbl_documentos, flush_proveedor.
  destruct (primera_cuenta (plan_cuentas st) nombre_gastos_default) as [cg|];
    [|eexists; split; [|reflexivity]; reflexivity].
  destruct (primera_cuenta (plan_cuentas st) nombre_iva);
    [|eexists; split; [|reflexivity]; reflexivity].
  destruct (primera_cuenta (plan_cuentas st) nombre_proveedores);
    [|eexists; split; [|reflexivity]; reflexivity].
  destruct (buscar_proveedor st (rut_emisor d)) eqn:Ep.
  - rewrite Hr. eexists; split; [|reflexivity]; reflexivity.
  - unfold buscar_proveedor in Ep. apply find_none_existsb in Ep.
    cbn. rewrite Ep, Hr. eexists; split; [|reflexivity]; reflexivity.
Qed.

Lemma cuerpo_desde_arbol_razon_social fl sp data nombre d :
  cuerpo_desde_arbol fl sp data nombre = Ok d -> exists s, razon_social d = Some s.
Proof.
  unfold cuerpo_desde_arbol, bind_res. intros H.
  destruct (negb (py_truthy _)); [discriminate|].
  repeat match type of H with
         | context [match ?x with Ok _ => _ | Err _ => _ end] =>
             destruct x; [|discriminate]
         end.
  injection H as <-. eexists; reflexivity.
Qed.

Lemma normalizar_arbol_ok fl sp data nombre d :
  normalizar_arbol fl sp data nombre = Ok d -> cuerpo_desde_arbol fl sp data nombre = Ok d.
Proof.
  unfold normalizar_arbol, envolver_error.
  destruct (cuerpo_desde_arbol fl sp data nombre); congruence.
Qed.

(** C2 (defect): no record produced by the normalizer can be posted.
    [generar_asiento] reads [documento.get("razon_social", ...)] and then
    passes the same dict to [TblDocumentos( **documento)], which has no
    such column; the wrapper re-raises the error (it is no
    [IntegrityError]) and the store is rolled back, so posting a
    normalized document twice gives two errors instead of Posted then
    Duplicate. *)
Theorem documento_normalizado_no_se_contabiliza fl sp (data : pyval) (nombre : string)
  (d : documento) (st : store) :
  normalizar_arbol fl sp data nombre = Ok d ->
  exists e, es_integridad e = false /\
    procesar_documento_con_control_duplicado d st = (Err e, st).
Proof.
  intros H. apply normalizar_arbol_ok, cuerpo_desde_arbol_razon_social in H.
  destruct H as [s Hs].
  destruct (generar_asiento_con_razon_social d st s Hs) as (e & He & Hg).
  exists e. split; [exact He|].
  unfold procesar_documento_con_control_duplicado. rewrite Hg.
  destruct e; try reflexivity; discriminate He.
Qed.

Lemma documento_normalizado_no_se_contabiliza_witness :
  normalizar_arbol float_decimal strptime_iso arbol_acme "acme.xml" = Ok doc_acme /\
  exists e, es_integridad e = false /\
    procesar_documento_con_control_duplicado doc_acme st_sembrado = (Err e, st_sembrado).
Proof.
  assert (Hn : normalizar_arbol float_decimal strptime_iso arbol_acme "acme.xml" = Ok doc_acme)
    by (vm_compute; reflexivity).
  split; [exact Hn|].
  exact (documento_normalizado_no_se_contabiliza float_decimal strptime_iso arbol_acme
           "acme.xml" doc_acme st_sembrado Hn).
Defined.

(** The scenario posted twice: two [TypeError]s, nothing stored. *)
Example escenario_acme_dos_veces :
  let '(r1, st1) := procesar_documento_con_control_duplicado doc_acme st_sembrado in
  let '(r2, st2) := procesar_documento_con_control_duplicado doc_acme st1 in
  r1 = Err (TypeError "'razon_social' is an invalid keyword argument for TblDocumentos") /\
  r2 = r1 /\ st2 = st_sembrado.
Proof. vm_compute. auto. Qed.

(** Without the [razon_social] key the same record is posted once and
    then reported as a duplicate, with one document, one entry and three
    movements stored. *)
Example escenario_sin_razon_social_dos_veces :
  let '(r1, st1) := procesar_documento_con_control_duplicado doc_acme_sin_rzn st_sembrado in
  let '(r2, st2) := procesar_documento_con_control_duplicado doc_acme_sin_rzn st1 in
  r1 = Ok (Posted 1 1) /\ r2 = Ok (Duplicado motivo_duplicado) /\ st2 = st1 /\
  length (documentos st2) = 1%nat /\ length (asientos st2) = 1%nat /\
  length (movimientos st2) = 3%nat.
Proof. vm_compute. auto 7. Qed.

(** ** Properties of the normalizer *)

(** C7: [parsear_dte_xml] either returns a record or raises one
    [ValueError] whose message names the file and carries [str] of the
    exception the body raised; malformed XML, a header not found (or
    empty), and a missing or unparseable issue date all end there. *)
Theorem parsear_dte_xml_error_unico fl sp parse (xml : list Byte.byte) (nombre : string) :
  ((exists d, parsear_dte_xml fl sp parse xml nombre = Ok d) \/
   (exists causa, cuerpo_parsear fl sp parse xml nombre = Err causa /\
      parsear_dte_xml fl sp parse xml nombre
        = Err (ValueError (mensaje_error nombre (str_exc causa))))) /\
  (forall m, parse xml = inl m ->
     parsear_dte_xml fl sp parse xml nombre = Err (ValueError (mensaje_error nombre m))) /\
  (forall data, parse xml = inr data ->
     py_truthy (_buscar_nodo_recursivo data "Encabezado") = false ->
     parsear_dte_xml fl sp parse xml nombre
       = Err (ValueError (mensaje_error nombre msg_sin_encabezado))) /\
  (forall data id_doc fch, parse xml = inr data ->
     py_get (_buscar_nodo_recursivo data "Encabezado") "IdDoc" (PDict []) = Ok id_doc ->
     py_get id_doc "FchEmis" PNone = Ok fch ->
     match fch with PStr s => sp s = None | _ => True end ->
     exists causa, cuerpo_parsear fl sp parse xml nombre = Err causa /\
       parsear_dte_xml fl sp parse xml nombre
         = Err (ValueError (mensaje_error nombre (str_exc causa)))).
Proof.
  unfold parsear_dte_xml, envolver_error.
  split; [|split; [|split]].
  - destruct (cuerpo_parsear fl sp parse xml nombre) as [d|e]; [left; eauto | right; eauto].
  - intros m Hm. unfold cuerpo_parsear. rewrite Hm. reflexivity.
  - intros data Hd Ht. unfold cuerpo_parsear, cuerpo_desde_arbol. rewrite Hd, Ht. reflexivity.
  - intros data id_doc fch Hd Hi Hf Hs.
    unfold cuerpo_parsear, cuerpo_desde_arbol. rewrite Hd.
    destruct (py_truthy (_buscar_nodo_recursivo data "Encabezado")); cbn;
      [|eexists; split; reflexivity].
    rewrite Hi. cbn.
    destruct (_buscar_nodo_recursivo data "Encabezado"); try discriminate Hi.
    cbn. rewrite Hf. cbn.
    destruct (dict_lookup l "Emisor"), (dict_lookup l "Totales"); cbn.
    all: destruct fch; try (eexists; split; reflexivity).
    all: unfold py_strptime; rewrite Hs; eexists; split; reflexivity.
Qed.

(** Whether [clave] is a key somewhere in the tree. *)
Fixpoint contiene_clave (data : pyval) (clave : string) : bool :=
  match data with
  | PDict kvs =>
      (fix go (l : list (string * pyval)) : bool :=
         match l with
         | [] => false
         | (k, v) :: r => String.eqb k clave || contiene_clave v clave || go r
         end) kvs
  | PList items =>
      (fix go (l : list pyval) : bool :=
         match l with
         | [] => false
         | x :: r => contiene_clave x clave || go r
         end) items
  | _ => false
  end.

Lemma buscar_sin_clave (data : pyval) (clave : string) :
  contiene_clave data clave = false -> _buscar_nodo_recursivo data clave = PNone.
Proof.
  revert data. fix IH 1. intros [|s|kvs|items]; cbn; try reflexivity.
  - induction kvs as [|[k v] r IHr]; cbn; [reflexivity|].
    intros H. apply orb_false_iff in H as [H Hr]. apply orb_false_iff in H as [Hk Hv].
    rewrite Hk, (IH v Hv). exact (IHr Hr).
  - induction items as [|x r IHr]; cbn; [reflexivity|].
    intros H. apply orb_false_iff in H as [Hx Hr].
    rewrite (IH x Hx). exact (IHr Hr).
Qed.

(** C8: when the value the depth-first search returns for "Encabezado"
    is empty ([{}], [""], [[]] or [None]), normalization fails with the
    same missing-header error as for a tree with no "Encabezado" key at
    all. *)
Theorem encabezado_vacio_mismo_error fl sp (nombre : string) :
  (forall data, py_truthy (_buscar_nodo_recursivo data "Encabezado") = false ->
     normalizar_arbol fl sp data nombre
       = Err (ValueError (mensaje_error nombre msg_sin_encabezado))) /\
  (forall data, contiene_clave data "Encabezado" = false ->
     normalizar_arbol fl sp data nombre
       = Err (ValueError (mensaje_error nombre msg_sin_encabezado))).
Proof.
  assert (Hvacio : forall data, py_truthy (_buscar_nodo_recursivo data "Encabezado") = false ->
     normalizar_arbol fl sp data nombre
       = Err (ValueError (mensaje_error nombre msg_sin_encabezado))).
  { intros data H. unfold normalizar_arbol, cuerpo_desde_arbol. rewrite H. reflexivity. }
  split; [exact Hvacio|].
  intros data H. apply Hvacio. rewrite (buscar_sin_clave data _ H). reflexivity.
Qed.

(** [<Totales/>]: the scenario document whose totals element has no child. *)
Definition arbol_totales_vacio : pyval := arbol_dte (encabezado_acme PNone).

(** C6 (defect): a document whose three monetary fields are all absent
    because its [<Totales/>] element is empty is not normalized: the
    element parses to [None] (the [{}] default of [encabezado.get] only
    covers a missing element) and [totales.get("MntNeto")] raises
    [AttributeError], whatever the float and date parsers do. *)
Theorem totales_vacio_no_normaliza fl sp :
  exists m, normalizar_arbol fl sp arbol_totales_vacio "acme.xml" = Err (ValueError m).
Proof.
  unfold normalizar_arbol, cuerpo_desde_arbol, py_strptime. cbn.
  destruct (sp "2024-05-01"); cbn; eexists; reflexivity.
Qed.

Example totales_vacio_mensaje :
  normalizar_arbol float_decimal strptime_iso arbol_totales_vacio "acme.xml"
    = Err (ValueError (mensaje_error "acme.xml" "'NoneType' object has no attribute 'get'")).
Proof. vm_compute. reflexivity. Qed.

(** Without the [Totales] element the same document normalizes, with the
    three amounts at 0. *)
Example totales_ausente_ceros :
  exists d, normalizar_arbol float_decimal strptime_iso
              (arbol_dte (PDict [("IdDoc", PDict [("TipoDTE", PStr "33"); ("Folio", PStr "123");
                                                  ("FchEmis", PStr "2024-05-01")]);
                                 ("Emisor", PDict [("RUTEmisor", PStr "76543210-1");
                                                   ("RznSoc", PStr "Acme")])]))
              "acme.xml" = Ok d /\
            monto_neto d = Fin 0 /\ monto_iva d = Fin 0 /\ monto_total d = Fin 0.
Proof. eexists. split; [vm_compute; reflexivity|]. auto. Qed.

(** [<Emisor/>]: a document with no folio, no type and an empty issuer
    element. *)
Definition arbol_emisor_vacio : pyval :=
  arbol_dte (PDict [("IdDoc", PDict [("FchEmis", PStr "2024-05-01")]);
                    ("Emisor", PNone); ("Totales", totales_acme)]).

(** C10 (defect): a document lacking folio, type and issuer identifier,
    whose [<Emisor/>] element is empty, is not normalized:
    [emisor.get("RUTEmisor", "")] raises [AttributeError] on [None]
    (same cause as for [<Totales/>]). *)
Theorem emisor_vacio_no_normaliza fl sp :
  exists m, normalizar_arbol fl sp arbol_emisor_vacio "sin_id.xml" = Err (ValueError m).
Proof.
  unfold normalizar_arbol, cuerpo_desde_arbol, py_strptime. cbn.
  destruct (sp "2024-05-01"); cbn; eexists; reflexivity.
Qed.

Example emisor_vacio_mensaje :
  normalizar_arbol float_decimal strptime_iso arbol_emisor_vacio "sin_id.xml"
    = Err (ValueError (mensaje_error "sin_id.xml" "'NoneType' object has no attribute 'get'")).
Proof. vm_compute. reflexivity. Qed.

(** Without the [Emisor] element the document normalizes with an empty
    deduplication key. *)
Example emisor_ausente_clave_vacia :
  exists d, normalizar_arbol float_decimal strptime_iso
              (arbol_dte (PDict [("IdDoc", PDict [("FchEmis", PStr "2024-05-01")]);
                                 ("Totales", totales_acme)]))
              "sin_id.xml" = Ok d /\
            folio d = "" /\ tipo_dte d = "" /\ rut_emisor d = "".
Proof. eexists. split; [vm_compute; reflexivity|]. auto. Qed.

(** ** More of the posting engine *)

Lemma fold_max_ge (l : list positive) (x : positive) :
  In x l -> (x <= fold_right Pos.max 1 l)%positive.
Proof.
  induction l as [|a l IH]; cbn; [tauto|].
  intros [<-|H]; [lia|]. specialize (IH H). lia.
Qed.

(** A new rowid is larger than every rowid of the table. *)
Lemma next_id_mayor (l : list positive) (x : positive) :
  In x l -> (x < next_id l)%positive.
Proof.
  intros H. destruct l as [|a r]; [destruct H|].
  unfold next_id. apply fold_max_ge in H. lia.
Qed.

Lemma next_id_nuevo (l : list positive) : ~ In (next_id l) l.
Proof. intros H. apply next_id_mayor in H. lia. Qed.

(** The document row [generar_asiento] stores for [d]. *)
Definition fila_documento (d : documento) (id : positive) : Documento.t :=
  {| Documento.id := id; Documento.folio := folio d; Documento.tipo_dte := tipo_dte d;
     Documento.fecha_emision := fecha_emision d; Documento.rut_emisor := rut_emisor d;
     Documento.monto_neto := monto_neto d; Documento.monto_iva := monto_iva d;
     Documento.monto_total := monto_total d; Documento.url_archivo := url_archivo d |}.

(** Full shape of a successful post, every table. *)
Lemma generar_asiento_exito_tablas (d : documento) (st st' : store) (r : res_post) :
  generar_asiento d st = (Ok r, st') ->
  exists cg ci cp neto iva total,
    primera_cuenta (plan_cuentas st) nombre_gastos_default = Some cg /\
    primera_cuenta (plan_cuentas st) nombre_iva = Some ci /\
    primera_cuenta (plan_cuentas st) nombre_proveedores = Some cp /\
    razon_social d = None /\
    existsb (fun x => misma_clave x (folio d) (rut_emisor d) (tipo_dte d)) (documentos st) = false /\
    (monto_neto d = Fin neto /\ monto_iva d = Fin iva /\ monto_total d = Fin total) /\
    let did := next_id (map Documento.id (documentos st)) in
    let aid := next_id (map Asiento.id (asientos st)) in
    r = Posted did aid /\
    plan_cuentas st' = plan_cuentas st /\
    proveedores st' = (proveedores st ++
      match buscar_proveedor st (rut_emisor d) with
      | Some _ => [] | None => [nuevo_proveedor d cg] end)%list /\
    documentos st' = (documentos st ++ [fila_documento d did])%list /\
    asientos st' = (asientos st ++ [Asiento.mk aid did (fecha_emision d)])%list /\
    movimientos st' = (movimientos st ++
      asignar_ids (next_id (map Movimiento.id (movimientos st)))
        (movimientos_compra d (proveedor_efectivo d st cg) neto iva total aid
           (cuenta_gasto (proveedor_efectivo d st cg) cg)
           (PlanCuentas.id_cuenta ci) (PlanCuentas.id_cuenta cp)))%list.
Proof.
  intros H.
  unfold generar_asiento, begin_tx, cuerpo_generar_asiento, bind_s, ret_s, lift_s,
    get_proveedor, _obtener_cuenta_por_nombre, tbl_documentos, flush_proveedor,
    flush_documento, flush_asiento, add_all_movimientos, proveedor_efectivo in *.
  desarmar H.
  all: repeat match goal with E : sql_real _ = Some _ |- _ => apply sql_real_some in E end.
  all: injection H as <- <-; do 6 eexists; repeat split; try eassumption;
       cbn; rewrite ?app_nil_r; try reflexivity.
Qed.

Lemma generar_asiento_err_sin_cambios (d : documento) (st st' : store) (e : excepcion) :
  generar_asiento d st = (Err e, st') -> st' = st.
Proof.
  unfold generar_asiento, begin_tx.
  destruct (cuerpo_generar_asiento d st) as [[a s]|e']; congruence.
Qed.

(** Posting a record whose key is already stored (accounts seeded, no
    [razon_social] key) returns the duplicate result and leaves the store
    as it was, the supplier creation included. *)
Lemma procesar_duplicado_aux (d : documento) (st : store) :
  primera_cuenta (plan_cuentas st) nombre_gastos_default <> None ->
  primera_cuenta (plan_cuentas st) nombre_iva <> None ->
  primera_cuenta (plan_cuentas st) nombre_proveedores <> None ->
  razon_social d = None ->
  existsb (fun x => misma_clave x (folio d) (rut_emisor d) (tipo_dte d)) (documentos st) = true ->
  procesar_documento_con_control_duplicado d st = (Ok (Duplicado motivo_duplicado), st).
Proof.
  intros Hg Hi Hp Hr Hk.
  unfold procesar_documento_con_control_duplicado, generar_asiento, begin_tx,
    cuerpo_generar_asiento, bind_s, ret_s, lift_s,
    get_proveedor, _obtener_cuenta_por_nombre, tbl_documentos, flush_proveedor,
    flush_documento.
  destruct (primera_cuenta (plan_cuentas st) nombre_gastos_default); [|congruence].
  destruct (primera_cuenta (plan_cuentas st) nombre_iva); [|congruence].
  destruct (primera_cuenta (plan_cuentas st) nombre_proveedores); [|congruence].
  destruct (buscar_proveedor st (rut_emisor d)) eqn:Eb.
  - rewrite Hr. cbn.
    destruct (sql_real (monto_neto d)), (sql_real (monto_iva d)), (sql_real (monto_total d));
      cbn; rewrite ?Hk; reflexivity.
  - unfold buscar_proveedor in Eb. apply find_none_existsb in Eb.
    cbn. rewrite Eb, Hr. cbn.
    destruct (sql_real (monto_neto d)), (sql_real (monto_iva d)), (sql_real (monto_total d));
      cbn; rewrite ?Hk; reflexivity.
Qed.

(** Posting a record whose key is already stored (accounts seeded, no
    [razon_social] key) returns the duplicate result and leaves the store
    as it was, the supplier creation included. *)
Theorem procesar_duplicado (d : documento) (st : store) :
  primera_cuenta (plan_cuentas st) nombre_gastos_default <> None ->
  primera_cuenta (plan_cuentas st) nombre_iva <> None ->
  primera_cuenta (plan_cuentas st) nombre_proveedores <> None ->
  razon_social d = None ->
  existsb (fun x => misma_clave x (folio d) (rut_emisor d) (tipo_dte d)) (documentos st) = true ->
  procesar_documento_con_control_duplicado d st = (Ok (Duplicado motivo_duplicado), st).
Proof. exact (procesar_duplicado_aux d st). Qed.

Lemma procesar_duplicado_witness :
  primera_cuenta (plan_cuentas st_acme) nombre_gastos_default <> None /\
  primera_cuenta (plan_cuentas st_acme) nombre_iva <> None /\
  primera_cuenta (plan_cuentas st_acme) nombre_proveedores <> None /\
  razon_social doc_acme_sin_rzn = None /\
  existsb (fun x => misma_clave x (folio doc_acme_sin_rzn) (rut_emisor doc_acme_sin_rzn)
                      (tipo_dte doc_acme_sin_rzn)) (documentos st_acme) = true /\
  procesar_documento_con_control_duplicado doc_acme_sin_rzn st_acme
    = (Ok (Duplicado motivo_duplicado), st_acme).
Proof.
  assert (H1 : primera_cuenta (plan_cuentas st_acme) nombre_gastos_default <> None)
    by (vm_compute; discriminate).
  assert (H2 : primera_cuenta (plan_cuentas st_acme) nombre_iva <> None)
    by (vm_compute; discriminate).
  assert (H3 : primera_cuenta (plan_cuentas st_acme) nombre_proveedores <> None)
    by (vm_compute; discriminate).
  assert (H4 : razon_social doc_acme_sin_rzn = None) by reflexivity.
  assert (H5 : existsb (fun x => misma_clave x (folio doc_acme_sin_rzn) (rut_emisor doc_acme_sin_rzn)
                      (tipo_dte doc_acme_sin_rzn)) (documentos st_acme) = true)
    by (vm_compute; reflexivity).
  split; [exact H1|]. split; [exact H2|]. split; [exact H3|].
  split; [exact H4|]. split; [exact H5|].
  exact (procesar_duplicado doc_acme_sin_rzn st_acme H1 H2 H3 H4 H5).
Defined.

(** A successful post stores the record as a document row under a fresh
    rowid, and one ledger entry under a fresh rowid that points to that
    document and is dated at its issue date; the ids returned are these,
    and the three movement rowids are fresh too. *)
Theorem generar_asiento_filas_nuevas (d : documento) (st st' : store) (r : res_post) :
  generar_asiento d st = (Ok r, st') ->
  exists did aid nuevos,
    r = Posted did aid /\
    ~ In did (map Documento.id (documentos st)) /\
    ~ In aid (map Asiento.id (asientos st)) /\
    documentos st' = (documentos st ++ [fila_documento d did])%list /\
    asientos st' = (asientos st ++ [Asiento.mk aid did (fecha_emision d)])%list /\
    movimientos st' = (movimientos st ++ nuevos)%list /\
    Forall (fun m => ~ In (Movimiento.id m) (map Movimiento.id (movimientos st))) nuevos.
Proof.
  intros H.
  destruct (generar_asiento_exito_tablas d st st' r H)
    as (cg & ci & cp & qn & qi & qt & _ & _ & _ & _ & _ & _ & Er & _ & _ & Ed & Ea & Em).
  do 3 eexists. split; [exact Er|].
  split; [apply next_id_nuevo|]. split; [apply next_id_nuevo|].
  split; [exact Ed|]. split; [exact Ea|]. split; [exact Em|].
  set (n := next_id (map Movimiento.id (movimientos st))).
  assert (Hn : forall x, In x (map Movimiento.id (movimientos st)) -> (x < n)%positive)
    by (intros x Hx; apply next_id_mayor, Hx).
  cbn. repeat constructor; cbn; intros Hin; apply Hn in Hin; lia.
Qed.

Lemma generar_asiento_filas_nuevas_witness :
  generar_asiento doc_acme_sin_rzn st_sembrado = (Ok (Posted 1 1), st_acme) /\
  exists did aid nuevos,
    Posted 1 1 = Posted did aid /\
    ~ In did (map Documento.id (documentos st_sembrado)) /\
    ~ In aid (map Asiento.id (asientos st_sembrado)) /\
    documentos st_acme = (documentos st_sembrado ++ [fila_documento doc_acme_sin_rzn did])%list /\
    asientos st_acme = (asientos st_sembrado ++
                          [Asiento.mk aid did (fecha_emision doc_acme_sin_rzn)])%list /\
    movimientos st_acme = (movimientos st_sembrado ++ nuevos)%list /\
    Forall (fun m => ~ In (Movimiento.id m) (map Movimiento.id (movimientos st_sembrado))) nuevos.
Proof.
  assert (Hg : generar_asiento doc_acme_sin_rzn st_sembrado = (Ok (Posted 1 1), st_acme))
    by (vm_compute; reflexivity).
  split; [exact Hg|].
  exact (generar_asiento_filas_nuevas doc_acme_sin_rzn st_sembrado st_acme (Posted 1 1) Hg).
Defined.

(** Posting only appends rows: the chart of accounts is never changed,
    existing suppliers, documents, entries and movements are kept as they
    are, and a duplicate or an error leaves the store exactly as it was. *)
Theorem procesar_solo_agrega (d : documento) (st : store) :
  let '(res, st') := procesar_documento_con_control_duplicado d st in
  plan_cuentas st' = plan_cuentas st /\
  (exists p1 d1 a1 m1,
     proveedores st' = (proveedores st ++ p1)%list /\
     documentos st' = (documentos st ++ d1)%list /\
     asientos st' = (asientos st ++ a1)%list /\
     movimientos st' = (movimientos st ++ m1)%list) /\
  ((exists did aid, res = Ok (Posted did aid)) \/ st' = st).
Proof.
  unfold procesar_documento_con_control_duplicado.
  destruct (generar_asiento d st) as [res st'] eqn:E.
  destruct res as [r|e].
  - destruct (generar_asiento_exito_tablas d st st' r E)
      as (cg & ci & cp & qn & qi & qt & _ & _ & _ & _ & _ & _ & Er & Ec & Ep & Ed & Ea & Em).
    cbn. split; [exact Ec|]. split; [do 4 eexists; eauto|]. left. rewrite Er. eauto.
  - apply generar_asiento_err_sin_cambios in E. subst st'.
    assert (Hs : plan_cuentas st = plan_cuentas st /\
                 (exists p1 d1 a1 m1,
                    proveedores st = (proveedores st ++ p1)%list /\
                    documentos st = (documentos st ++ d1)%list /\
                    asientos st = (asientos st ++ a1)%list /\
                    movimientos st = (movimientos st ++ m1)%list))
      by (split; [reflexivity|]; exists [], [], [], []; rewrite !app_nil_r; auto).
    destruct e; (split; [apply Hs|]; split; [apply Hs|]; right; reflexivity).
Qed.

Definition clave_doc (x : Documento.t) : string * string * string :=
  (Documento.folio x, Documento.rut_emisor x, Documento.tipo_dte x).

Lemma NoDup_snoc {A} (l : list A) (x : A) : NoDup l -> ~ In x l -> NoDup (l ++ [x]).
Proof.
  intros Hl Hx. apply NoDup_app; [exact Hl | repeat constructor; auto |].
  intros a Ha [<-|[]]. exact (Hx Ha).
Qed.

(** Posting keeps the table constraints as store invariants: no two
    documents share a (folio, issuer, type) key and no two suppliers
    share a tax identifier. *)
Theorem procesar_preserva_unicidad (d : documento) (st st' : store) (res : resultado res_post) :
  procesar_documento_con_control_duplicado d st = (res, st') ->
  NoDup (map clave_doc (documentos st)) ->
  NoDup (map Proveedor.rut (proveedores st)) ->
  NoDup (map clave_doc (documentos st')) /\ NoDup (map Proveedor.rut (proveedores st')).
Proof.
  intros H Hd Hp.
  unfold procesar_documento_con_control_duplicado in H.
  destruct (generar_asiento d st) as [[r|e] s] eqn:E.
  - injection H as <- <-.
    destruct (generar_asiento_exito_tablas d st s r E)
      as (cg & ci & cp & qn & qi & qt & _ & _ & _ & _ & Ek & _ & _ & _ & Ep & Ed & _).
    rewrite Ed, Ep, !map_app. split.
    + apply NoDup_snoc; [exact Hd|].
      intros Hin. apply in_map_iff in Hin as (x & Hx & Hin).
      assert (Ht : misma_clave x (folio d) (rut_emisor d) (tipo_dte d) = true).
      { unfold clave_doc in Hx. cbn in Hx. injection Hx as H1 H2 H3.
        unfold misma_clave. rewrite H1, H2, H3, !String.eqb_refl. reflexivity. }
      assert (Hex : existsb (fun x => misma_clave x (folio d) (rut_emisor d) (tipo_dte d))
                      (documentos st) = true)
        by (apply existsb_exists; eauto).
      congruence.
    + destruct (buscar_proveedor st (rut_emisor d)) eqn:Eb; cbn.
      * rewrite app_nil_r. exact Hp.
      * apply NoDup_snoc; [exact Hp|].
        intros Hin. apply in_map_iff in Hin as (q & Hq & Hin).
        unfold buscar_proveedor in Eb.
        pose proof (find_none _ _ Eb q Hin) as Hf. cbn in Hq, Hf.
        rewrite Hq, String.eqb_refl in Hf. discriminate.
  - apply generar_asiento_err_sin_cambios in E. subst s.
    destruct e; injection H as _ <-; auto.
Qed.

Lemma procesar_preserva_unicidad_witness :
  procesar_documento_con_control_duplicado doc_acme_sin_rzn st_sembrado
    = (Ok (Posted 1 1), st_acme) /\
  NoDup (map clave_doc (documentos st_sembrado)) /\
  NoDup (map Proveedor.rut (proveedores st_sembrado)) /\
  NoDup (map clave_doc (documentos st_acme)) /\ NoDup (map Proveedor.rut (proveedores st_acme)).
Proof.
  assert (Hg : procesar_documento_con_control_duplicado doc_acme_sin_rzn st_sembrado
                 = (Ok (Posted 1 1), st_acme)) by (vm_compute; reflexivity).
  assert (Hd : NoDup (map clave_doc (documentos st_sembrado))) by constructor.
  assert (Hp : NoDup (map Proveedor.rut (proveedores st_sembrado))) by constructor.
  split; [exact Hg|]. split; [exact Hd|]. split; [exact Hp|].
  exact (procesar_preserva_unicidad doc_acme_sin_rzn st_sembrado st_acme _ Hg Hd Hp).
Defined.






(** ** The batch upload *)

Definition cuenta_estado (s : string) (l : list entrada_log) : nat :=
  length (filter (fun e => String.eqb (entrada_estado e) s) l).

Lemma paso_carga_forma fl sp parse ec archivo :
  let ec' := paso_carga fl sp parse ec archivo in
  exists est det, log ec' = (log ec ++ [(snd archivo, est, det)])%list /\
    ((est = "insertado" /\ insertados ec' = S (insertados ec) /\
      duplicados ec' = duplicados ec /\ errores ec' = errores ec) \/
     (est = "duplicado" /\ insertados ec' = insertados ec /\
      duplicados ec' = S (duplicados ec) /\ errores ec' = errores ec) \/
     (est = "error" /\ insertados ec' = insertados ec /\
      duplicados ec' = duplicados ec /\ errores ec' = S (errores ec))).
Proof.
  destruct archivo as [contenido nombre]. cbn.
  destruct (parsear_dte_xml fl sp parse contenido nombre) as [d|exc].
  - destruct (procesar_documento_con_control_duplicado d (bd ec)) as [[[a b|m]|exc] st'];
      cbn; do 2 eexists; split; try reflexivity; intuition.
  - cbn; do 2 eexists; split; [reflexivity|]; intuition.
Qed.

Lemma cargar_fold_resumen fl sp parse archivos ec :
  cuenta_estado "insertado" (log ec) = insertados ec ->
  cuenta_estado "duplicado" (log ec) = duplicados ec ->
  cuenta_estado "error" (log ec) = errores ec ->
  let ec' := fold_left (paso_carga fl sp parse) archivos ec in
  (insertados ec' + duplicados ec' + errores ec' =
    insertados ec + duplicados ec + errores ec + length archivos)%nat /\
  map entrada_archivo (log ec') = (map entrada_archivo (log ec) ++ map snd archivos)%list /\
  cuenta_estado "insertado" (log ec') = insertados ec' /\
  cuenta_estado "duplicado" (log ec') = duplicados ec' /\
  cuenta_estado "error" (log ec') = errores ec'.
Proof.
  revert ec. induction archivos as [|a r IH]; intros ec Hi Hd He; cbn.
  - rewrite app_nil_r. repeat split; auto; lia.
  - destruct (paso_carga_forma fl sp parse ec a) as (est & det & Hl & Hc).
    set (ec1 := paso_carga fl sp parse ec a) in *.
    unfold cuenta_estado in *.
    assert (H : cuenta_estado "insertado" (log ec1) = insertados ec1 /\
                cuenta_estado "duplicado" (log ec1) = duplicados ec1 /\
                cuenta_estado "error" (log ec1) = errores ec1).
    { unfold cuenta_estado. rewrite Hl, !filter_app, !length_app.
      destruct Hc as [(-> & H1 & H2 & H3)|[(-> & H1 & H2 & H3)|(-> & H1 & H2 & H3)]];
        cbn; rewrite H1, H2, H3; lia. }
    destruct H as (H1 & H2 & H3).
    destruct (IH ec1 H1 H2 H3) as (E1 & E2 & E3).
    split; [|split; [|exact E3]].
    + rewrite E1. destruct Hc as [(_ & -> & -> & ->)|[(_ & -> & -> & ->)|(_ & -> & -> & ->)]]; lia.
    + rewrite E2, Hl, map_app, <- app_assoc. reflexivity.
Qed.

(** The summary and the log of a batch agree: the three counters add up
    to the number of files, the log has one entry per file in upload
    order, and each counter is the number of log entries with its state. *)
Theorem cargar_lote_resumen fl sp parse (archivos : list (list Byte.byte * string)) (st : store) :
  let ec := cargar_lote fl sp parse archivos st in
  (insertados ec + duplicados ec + errores ec = length archivos)%nat /\
  map entrada_archivo (log ec) = map snd archivos /\
  cuenta_estado "insertado" (log ec) = insertados ec /\
  cuenta_estado "duplicado" (log ec) = duplicados ec /\
  cuenta_estado "error" (log ec) = errores ec.
Proof.
  unfold cargar_lote.
  exact (cargar_fold_resumen fl sp parse archivos (mk_carga 0 0 0 [] st)
           eq_refl eq_refl eq_refl).
Qed.

Lemma parsear_dte_xml_razon_social fl sp parse xml nombre d :
  parsear_dte_xml fl sp parse xml nombre = Ok d -> exists s, razon_social d = Some s.
Proof.
  unfold parsear_dte_xml, envolver_error, cuerpo_parsear.
  destruct (parse xml) as [m|data]; [discriminate|].
  destruct (cuerpo_desde_arbol fl sp data nombre) eqn:E; [|discriminate].
  intros H. injection H as <-. exact (cuerpo_desde_arbol_razon_social fl sp data nombre _ E).
Qed.

Lemma procesar_con_razon_social (d : documento) (st : store) (s : string) :
  razon_social d = Some s ->
  exists e, procesar_documento_con_control_duplicado d st = (Err e, st).
Proof.
  intros Hr. destruct (generar_asiento_con_razon_social d st s Hr) as (e & He & E).
  unfold procesar_documento_con_control_duplicado. rewrite E.
  exists e. destruct e; cbn in He; try discriminate; reflexivity.
Qed.

Lemma paso_carga_error fl sp parse ec archivo :
  let ec' := paso_carga fl sp parse ec archivo in
  insertados ec' = insertados ec /\ duplicados ec' = duplicados ec /\
  errores ec' = S (errores ec) /\ bd ec' = bd ec.
Proof.
  destruct archivo as [contenido nombre]. cbn.
  destruct (parsear_dte_xml fl sp parse contenido nombre) as [d|exc] eqn:E; [|cbn; auto].
  destruct (parsear_dte_xml_razon_social fl sp parse contenido nombre d E) as (s & Hs).
  destruct (procesar_con_razon_social d (bd ec) s Hs) as (e & ->). cbn. auto.
Qed.

(** Whatever the files and whatever the XML library returns, a batch
    inserts nothing and reports no duplicate: every file is counted as an
    error and the database is left as it was. *)
Theorem cargar_lote_nunca_inserta fl sp parse (archivos : list (list Byte.byte * string)) (st : store) :
  let ec := cargar_lote fl sp parse archivos st in
  insertados ec = 0%nat /\ duplicados ec = 0%nat /\ errores ec = length archivos /\ bd ec = st.
Proof.
  unfold cargar_lote.
  assert (G : forall ec, let ec' := fold_left (paso_carga fl sp parse) archivos ec in
              insertados ec' = insertados ec /\ duplicados ec' = duplicados ec /\
              errores ec' = (errores ec + length archivos)%nat /\ bd ec' = bd ec).
  { induction archivos as [|a r IH]; intros ec; cbn; [repeat split; lia|].
    destruct (paso_carga_error fl sp parse ec a) as (H1 & H2 & H3 & H4).
    destruct (IH (paso_carga fl sp parse ec a)) as (E1 & E2 & E3 & E4).
    rewrite E1, E2, E3, E4, H1, H2, H3, H4. repeat split; lia. }
  exact (G (mk_carga 0 0 0 [] st)).
Qed.

(** ** Seeding the chart of accounts *)

Definition tiene_codigo (codigo : string) (st : store) : bool :=
  existsb (fun a => String.eqb (PlanCuentas.codigo a) codigo) (plan_cuentas st).

Lemma existsb_find {A} (f : A -> bool) (l : list A) :
  existsb f l = match find f l with Some _ => true | None => false end.
Proof.
  induction l as [|a l IH]; cbn; [reflexivity|]. destruct (f a); [reflexivity | exact IH].
Qed.

Lemma upsert_forma codigo nombre tipo st :
  let st' := _upsert_cuenta codigo nombre tipo st in
  (exists extra, plan_cuentas st' = (plan_cuentas st ++ extra)%list) /\
  proveedores st' = proveedores st /\ documentos st' = documentos st /\
  asientos st' = asientos st /\ movimientos st' = movimientos st.
Proof.
  unfold _upsert_cuenta.
  destruct (find _ (plan_cuentas st)); cbn.
  - repeat split; auto. exists []. rewrite app_nil_r. reflexivity.
  - repeat split; auto. eexists; reflexivity.
Qed.

Lemma sembrar_forma filas st :
  let st' := snd (sembrar_filas filas st) in
  (exists extra, plan_cuentas st' = (plan_cuentas st ++ extra)%list) /\
  proveedores st' = proveedores st /\ documentos st' = documentos st /\
  asientos st' = asientos st /\ movimientos st' = movimientos st.
Proof.
  revert st. induction filas as [|row r IH]; intros st; cbn.
  - repeat split; auto. exists []. rewrite app_nil_r. reflexivity.
  - destruct (csv_get row "codigo") as [c|];
      [|cbn; repeat split; auto; exists []; rewrite app_nil_r; reflexivity].
    destruct (csv_get row "nombre") as [n|];
      [|cbn; repeat split; auto; exists []; rewrite app_nil_r; reflexivity].
    destruct (csv_get row "tipo") as [t|];
      [|cbn; repeat split; auto; exists []; rewrite app_nil_r; reflexivity].
    destruct (upsert_forma c n t st) as ((e1 & P1) & Q1 & Q2 & Q3 & Q4).
    destruct (IH (_upsert_cuenta c n t st)) as ((e2 & P2) & R1 & R2 & R3 & R4).
    repeat split; try congruence.
    exists (e1 ++ e2)%list. rewrite P2, P1, app_assoc. reflexivity.
Qed.

Lemma tiene_codigo_app codigo st st' extra :
  plan_cuentas st' = (plan_cuentas st ++ extra)%list ->
  tiene_codigo codigo st = true -> tiene_codigo codigo st' = true.
Proof.
  unfold tiene_codigo. intros -> H. rewrite existsb_app, H. reflexivity.
Qed.

Lemma sembrar_conserva_codigo codigo filas st :
  tiene_codigo codigo st = true -> tiene_codigo codigo (snd (sembrar_filas filas st)) = true.
Proof.
  destruct (sembrar_forma filas st) as ((e & P) & _). apply tiene_codigo_app with (1 := P).
Qed.

Lemma upsert_agrega codigo nombre tipo st :
  tiene_codigo codigo (_upsert_cuenta codigo nombre tipo st) = true.
Proof.
  unfold _upsert_cuenta, tiene_codigo.
  destruct (find _ (plan_cuentas st)) eqn:E.
  - rewrite existsb_find, E. reflexivity.
  - cbn. rewrite existsb_app. cbn. rewrite String.eqb_refl, orb_true_r. reflexivity.
Qed.

Lemma upsert_presente codigo nombre tipo st :
  tiene_codigo codigo st = true -> _upsert_cuenta codigo nombre tipo st = st.
Proof.
  unfold _upsert_cuenta, tiene_codigo. rewrite existsb_find.
  destruct (find _ (plan_cuentas st)); [reflexivity | discriminate].
Qed.

Lemma sembrar_idempotente filas st :
  sembrar_filas filas (snd (sembrar_filas filas st)) = sembrar_filas filas st.
Proof.
  revert st. induction filas as [|row r IH]; intros st; [reflexivity|].
  cbn [sembrar_filas].
  destruct (csv_get row "codigo") as [c|] eqn:E1; [|reflexivity].
  destruct (csv_get row "nombre") as [n|] eqn:E2; [|reflexivity].
  destruct (csv_get row "tipo") as [t|] eqn:E3; [|reflexivity].
  rewrite (upsert_presente c n t).
  - exact (IH (_upsert_cuenta c n t st)).
  - apply sembrar_conserva_codigo, upsert_agrega.
Qed.


(** Running the seed again on the database it produced changes nothing
    and ends the same way (the same [KeyError], if any). *)
Theorem seed_plan_cuentas_idempotente (csv : option (list fila_csv)) (st : store) :
  seed_plan_cuentas csv (snd (seed_plan_cuentas csv st)) = seed_plan_cuentas csv st.
Proof.
  destruct csv as [filas|]; [exact (sembrar_idempotente filas st) | reflexivity].
Qed.

Lemma sembrar_codigos filas st :
  fst (sembrar_filas filas st) = None ->
  forall row, In row filas ->
  exists codigo, csv_get row "codigo" = Some codigo /\
    tiene_codigo codigo (snd (sembrar_filas filas st)) = true.
Proof.
  revert st. induction filas as [|row0 r IH]; intros st H row Hin; [destruct Hin|].
  cbn [sembrar_filas] in *.
  destruct (csv_get row0 "codigo") as [c|] eqn:E1; [|discriminate].
  destruct (csv_get row0 "nombre") as [n|] eqn:E2; [|discriminate].
  destruct (csv_get row0 "tipo") as [t|] eqn:E3; [|discriminate].
  destruct Hin as [<-|Hin].
  - exists c. split; [exact E1|]. apply sembrar_conserva_codigo, upsert_agrega.
  - exact (IH _ H row Hin).
Qed.

(** When the seed ends without error, every row of the file has a code
    and an account with that code is in the chart. *)
Theorem seed_plan_cuentas_completo (filas : list fila_csv) (st : store) :
  fst (seed_plan_cuentas (Some filas) st) = None ->
  forall row, In row filas ->
  exists codigo, csv_get row "codigo" = Some codigo /\
    tiene_codigo codigo (snd (seed_plan_cuentas (Some filas) st)) = true.
Proof. exact (sembrar_codigos filas st). Qed.

Definition csv_semilla : list fila_csv :=
  [[("codigo", "5101"); ("nombre", nombre_gastos_default); ("tipo", "Gasto")];
   [("codigo", "5103"); ("nombre", "Servicios"); ("tipo", "Gasto")]].

Lemma seed_plan_cuentas_completo_witness :
  fst (seed_plan_cuentas (Some csv_semilla) st_sembrado) = None /\
  exists codigo, csv_get [("codigo", "5103"); ("nombre", "Servicios"); ("tipo", "Gasto")] "codigo"
      = Some codigo /\
    tiene_codigo codigo (snd (seed_plan_cuentas (Some csv_semilla) st_sembrado)) = true.
Proof.
  assert (H : fst (seed_plan_cuentas (Some csv_semilla) st_sembrado) = None)
    by (vm_compute; reflexivity).
  split; [exact H|].
  apply (seed_plan_cuentas_completo csv_semilla st_sembrado H).
  cbn. right. left. reflexivity.
Defined.

Lemma upsert_unicidad codigo nombre tipo st :
  NoDup (map PlanCuentas.codigo (plan_cuentas st)) ->
  NoDup (map PlanCuentas.id_cuenta (plan_cuentas st)) ->
  let st' := _upsert_cuenta codigo nombre tipo st in
  NoDup (map PlanCuentas.codigo (plan_cuentas st')) /\
  NoDup (map PlanCuentas.id_cuenta (plan_cuentas st')).
Proof.
  intros Hc Hi. unfold _upsert_cuenta.
  destruct (find _ (plan_cuentas st)) eqn:E; [auto|].
  cbn. rewrite !map_app. cbn. split.
  - apply NoDup_snoc; [exact Hc|]. intros Hin.
    apply in_map_iff in Hin as (a & Ha & Hin).
    pose proof (find_none _ _ E a Hin) as Hf. cbn in Hf.
    rewrite Ha, String.eqb_refl in Hf. discriminate.
  - apply NoDup_snoc; [exact Hi | apply next_id_nuevo].
Qed.

(** Seeding keeps the codes (UNIQUE) and the ids of the chart distinct. *)
Theorem seed_plan_cuentas_unicidad (csv : option (list fila_csv)) (st : store) :
  NoDup (map PlanCuentas.codigo (plan_cuentas st)) ->
  NoDup (map PlanCuentas.id_cuenta (plan_cuentas st)) ->
  let st' := snd (seed_plan_cuentas csv st) in
  NoDup (map PlanCuentas.codigo (plan_cuentas st')) /\
  NoDup (map PlanCuentas.id_cuenta (plan_cuentas st')).
Proof.
  destruct csv as [filas|]; cbn; [|auto].
  revert st. induction filas as [|row r IH]; intros st Hc Hi; cbn; [auto|].
  destruct (csv_get row "codigo") as [c|]; [|cbn; auto].
  destruct (csv_get row "nombre") as [n|]; [|cbn; auto].
  destruct (csv_get row "tipo") as [t|]; [|cbn; auto].
  destruct (upsert_unicidad c n t st Hc Hi) as (H1 & H2).
  exact (IH _ H1 H2).
Qed.

Lemma seed_plan_cuentas_unicidad_witness :
  NoDup (map PlanCuentas.codigo (plan_cuentas st_sembrado)) /\
  NoDup (map PlanCuentas.id_cuenta (plan_cuentas st_sembrado)) /\
  let st' := snd (seed_plan_cuentas (Some csv_semilla) st_sembrado) in
  NoDup (map PlanCuentas.codigo (plan_cuentas st')) /\
  NoDup (map PlanCuentas.id_cuenta (plan_cuentas st')).
Proof.
  assert (Hc : NoDup (map PlanCuentas.codigo (plan_cuentas st_sembrado))).
  { cbn. repeat constructor; cbn; intuition discriminate. }
  assert (Hi : NoDup (map PlanCuentas.id_cuenta (plan_cuentas st_sembrado))).
  { cbn. repeat constructor; cbn; intuition discriminate. }
  split; [exact Hc|]. split; [exact Hi|].
  exact (seed_plan_cuentas_unicidad (Some csv_semilla) st_sembrado Hc Hi).
Defined.

(** ** Saving the supplier classification *)

Definition existe_rut (rut : string) (provs : list Proveedor.t) : bool :=
  existsb (fun p => String.eqb (Proveedor.rut p) rut) provs.

(** A row that raises [KeyError]: its supplier exists and its label is
    not an option. *)
Definition fila_falla (cuentas : list PlanCuentas.t) (provs : list Proveedor.t) (f : fila_editor) : bool :=
  let '(rut, _, label) := f in
  existe_rut rut provs && match opciones cuentas label with Some _ => false | None => true end.

(** The account of the last row that names [rut]. *)
Fixpoint ultima_cuenta (cuentas : list PlanCuentas.t) (rut : string) (filas : list fila_editor)
  : option positive :=
  match filas with
  | [] => None
  | (r, _, label) :: resto =>
      match ultima_cuenta cuentas rut resto with
      | Some i => Some i
      | None => if String.eqb r rut then opciones cuentas label else None
      end
  end.

Definition aplicar_ultima (cuentas : list PlanCuentas.t) (filas : list fila_editor) (p : Proveedor.t)
  : Proveedor.t :=
  match ultima_cuenta cuentas (Proveedor.rut p) filas with
  | Some i => con_cuenta p i
  | None => p
  end.

Lemma find_ext {A} (f g : A -> bool) (l : list A) :
  (forall x, f x = g x) -> find f l = find g l.
Proof. intros H. induction l as [|a l IH]; cbn; [reflexivity|]. rewrite H, IH. reflexivity. Qed.

Lemma find_todos_falsos {A} (f : A -> bool) (l : list A) :
  (forall x, In x l -> f x = false) -> find f l = None.
Proof.
  induction l as [|a l IH]; intros H; cbn; [reflexivity|].
  rewrite (H a (or_introl eq_refl)). apply IH. intros x Hx. apply H. right. exact Hx.
Qed.

Lemma existe_rut_fijar x r i provs :
  existe_rut x (fijar_cuenta r i provs) = existe_rut x provs.
Proof.
  unfold existe_rut, fijar_cuenta.
  induction provs as [|p provs IH]; cbn; [reflexivity|].
  rewrite IH. destruct (String.eqb (Proveedor.rut p) r); reflexivity.
Qed.

(** The save either raises [KeyError] with the label of the first row
    whose supplier exists and whose label is not an option, or gives each
    supplier the account of the last row that names it (rows of unknown
    suppliers are skipped). *)
Lemma guardar_filas_forma (cuentas : list PlanCuentas.t) (filas : list fila_editor)
  (provs : list Proveedor.t) :
  guardar_filas cuentas filas provs =
  match find (fila_falla cuentas provs) filas with
  | Some (_, _, label) => inl label
  | None => inr (map (aplicar_ultima cuentas filas) provs)
  end.
Proof.
  revert provs. induction filas as [|[[r z] l] resto IH]; intros provs.
  - cbn. f_equal. unfold aplicar_ultima. cbn. symmetry. apply map_id.
  - cbn [guardar_filas find].
    destruct (find (fun p => String.eqb (Proveedor.rut p) r) provs) eqn:Ef.
    + assert (He : existe_rut r provs = true) by (unfold existe_rut; rewrite existsb_find, Ef; reflexivity).
      unfold fila_falla at 1. rewrite He. cbn [andb].
      destruct (opciones cuentas l) as [i|] eqn:Eo; [|reflexivity].
      rewrite IH.
      rewrite (find_ext (fila_falla cuentas (fijar_cuenta r i provs)) (fila_falla cuentas provs))
        by (intros [[x y] w]; unfold fila_falla; cbv beta iota; rewrite existe_rut_fijar; reflexivity).
      destruct (find (fila_falla cuentas provs) resto) as [[[x y] w]|]; [reflexivity|].
      f_equal. unfold fijar_cuenta. rewrite map_map. apply map_ext. intros p.
      unfold aplicar_ultima. cbn [ultima_cuenta].
      destruct (String.eqb_spec (Proveedor.rut p) r) as [Hr|Hr].
      * subst r. cbn [Proveedor.rut con_cuenta]. rewrite String.eqb_refl.
        destruct (ultima_cuenta cuentas (Proveedor.rut p) resto); [reflexivity|].
        rewrite Eo. reflexivity.
      * assert (Hr' : String.eqb r (Proveedor.rut p) = false)
          by (apply String.eqb_neq; congruence).
        rewrite Hr'. destruct (ultima_cuenta cuentas (Proveedor.rut p) resto); reflexivity.
    + assert (He : existe_rut r provs = false) by (apply find_none_existsb; exact Ef).
      unfold fila_falla at 1. rewrite He. cbn [andb].
      rewrite IH.
      destruct (find (fila_falla cuentas provs) resto) as [[[x y] w]|]; [reflexivity|].
      f_equal. apply map_ext_in. intros p Hp.
      unfold aplicar_ultima. cbn [ultima_cuenta].
      assert (Hr' : String.eqb r (Proveedor.rut p) = false).
      { destruct (String.eqb r (Proveedor.rut p)) eqn:E; [|reflexivity].
        apply String.eqb_eq in E. subst r.
        pose proof (find_none _ _ Ef p Hp) as Hf. cbn in Hf. rewrite String.eqb_refl in Hf.
        discriminate. }
      rewrite Hr'. destruct (ultima_cuenta cuentas (Proveedor.rut p) resto); reflexivity.
Qed.

Fixpoint tiene_guion (s : string) : bool :=
  match s with
  | EmptyString => false
  | String c r => Ascii.eqb c "-"%char || tiene_guion r
  end.

Lemma tiene_guion_app (a b : string) : tiene_guion (a ++ b) = tiene_guion a || tiene_guion b.
Proof. induction a as [|c a IH]; cbn; [reflexivity|]. rewrite IH, orb_assoc. reflexivity. Qed.

Lemma etiqueta_no_sin_asignar (c : PlanCuentas.t) : etiqueta c <> sin_asignar.
Proof.
  intros H. apply (f_equal tiene_guion) in H. unfold etiqueta in H.
  rewrite tiene_guion_app in H. cbn in H. rewrite orb_true_r in H. discriminate.
Qed.

Lemma opciones_sin_asignar (cuentas : list PlanCuentas.t) : opciones cuentas sin_asignar = None.
Proof.
  unfold opciones. generalize (@None positive) as acc.
  induction cuentas as [|c cuentas IH]; intros acc; cbn; [reflexivity|].
  destruct (String.eqb_spec (etiqueta c) sin_asignar) as [E|E].
  - exfalso. exact (etiqueta_no_sin_asignar c E).
  - apply IH.
Qed.

(** A row still showing ["Sin asignar"] for an existing supplier (one with
    no default account, or one whose account is gone) makes the whole save
    raise [KeyError] and roll back: no other row of the table is saved. *)
Theorem guardar_sin_asignar_revierte (cuentas : list PlanCuentas.t) (filas : list fila_editor)
  (st : store) (rut razon : string) :
  In (rut, razon, sin_asignar) filas ->
  existe_rut rut (proveedores st) = true ->
  exists label, guardar_clasificacion cuentas filas st = (Some label, st).
Proof.
  intros Hin He. unfold guardar_clasificacion. rewrite guardar_filas_forma.
  destruct (find (fila_falla cuentas (proveedores st)) filas) as [[[x y] w]|] eqn:Ef.
  - eexists; reflexivity.
  - pose proof (find_none _ _ Ef _ Hin) as Hf. cbn in Hf.
    rewrite He, opciones_sin_asignar in Hf. discriminate.
Qed.

Definition st_proveedor_sin_cuenta : store :=
  con_proveedores st_acme
    (proveedores st_acme ++ [Proveedor.mk "77.777.777-7" "Sin Cuenta Ltda" None])%list.

Lemma guardar_sin_asignar_revierte_witness :
  let cuentas := ordenar_cuentas (plan_cuentas st_proveedor_sin_cuenta) in
  let filas := tabla_proveedores cuentas (proveedores st_proveedor_sin_cuenta) in
  In ("77.777.777-7", "Sin Cuenta Ltda", sin_asignar) filas /\
  existe_rut "77.777.777-7" (proveedores st_proveedor_sin_cuenta) = true /\
  exists label, guardar_clasificacion cuentas filas st_proveedor_sin_cuenta
                  = (Some label, st_proveedor_sin_cuenta).
Proof.
  intros cuentas filas.
  assert (Hin : In ("77.777.777-7", "Sin Cuenta Ltda", sin_asignar) filas).
  { unfold filas, cuentas. vm_compute. right. left. reflexivity. }
  assert (He : existe_rut "77.777.777-7" (proveedores st_proveedor_sin_cuenta) = true)
    by (vm_compute; reflexivity).
  split; [exact Hin|]. split; [exact He|].
  exact (guardar_sin_asignar_revierte cuentas filas st_proveedor_sin_cuenta _ _ Hin He).
Defined.

Lemma insertar_cuenta_perm (c : PlanCuentas.t) (l : list PlanCuentas.t) :
  Permutation (insertar_cuenta c l) (c :: l).
Proof.
  induction l as [|x l IH]; cbn; [reflexivity|].
  destruct (String.compare _ _); try reflexivity.
  rewrite IH. apply perm_swap.
Qed.

Lemma ordenar_cuentas_perm (l : list PlanCuentas.t) : Permutation (ordenar_cuentas l) l.
Proof.
  induction l as [|c l IH]; cbn; [reflexivity|].
  rewrite insertar_cuenta_perm. apply perm_skip. exact IH.
Qed.

Section UltimoGana.
Context {A B C : Type} (key : A -> B) (val : A -> C) (eqb : B -> B -> bool).
Hypothesis eqb_ok : forall x y, eqb x y = true <-> x = y.

Lemma fold_ultimo_ausente (l : list A) (k : B) (acc : option C) :
  (forall x, In x l -> key x <> k) ->
  fold_left (fun acc x => if eqb (key x) k then Some (val x) else acc) l acc = acc.
Proof.
  revert acc. induction l as [|x l IH]; intros acc H; cbn; [reflexivity|].
  destruct (eqb (key x) k) eqn:E.
  - apply eqb_ok in E. exfalso. exact (H x (or_introl eq_refl) E).
  - apply IH. intros y Hy. apply H. right. exact Hy.
Qed.

Lemma fold_ultimo (l : list A) (c : A) (acc : option C) :
  NoDup (map key l) -> In c l ->
  fold_left (fun acc x => if eqb (key x) (key c) then Some (val x) else acc) l acc = Some (val c).
Proof.
  revert acc. induction l as [|x l IH]; intros acc Hn Hin; [destruct Hin|].
  cbn in Hn |- *. apply NoDup_cons_iff in Hn as [Hx Hn].
  destruct Hin as [<-|Hin].
  - assert (E : eqb (key x) (key x) = true) by (apply eqb_ok; reflexivity).
    rewrite E. apply fold_ultimo_ausente.
    intros y Hy Hk. apply Hx. rewrite <- Hk. apply in_map. exact Hy.
  - apply IH; assumption.
Qed.
End UltimoGana.

Lemma map_cuentas_unica (cuentas : list PlanCuentas.t) (c : PlanCuentas.t) :
  NoDup (map PlanCuentas.id_cuenta cuentas) -> In c cuentas ->
  map_cuentas cuentas (PlanCuentas.id_cuenta c) = Some (etiqueta c).
Proof.
  intros Hn Hin. unfold map_cuentas.
  exact (fold_ultimo PlanCuentas.id_cuenta etiqueta Pos.eqb Pos.eqb_eq cuentas c None Hn Hin).
Qed.

Lemma opciones_unica (cuentas : list PlanCuentas.t) (c : PlanCuentas.t) :
  NoDup (map etiqueta cuentas) -> In c cuentas ->
  opciones cuentas (etiqueta c) = Some (PlanCuentas.id_cuenta c).
Proof.
  intros Hn Hin. unfold opciones.
  exact (fold_ultimo etiqueta PlanCuentas.id_cuenta String.eqb String.eqb_eq cuentas c None Hn Hin).
Qed.

Lemma ultima_cuenta_ausente cuentas rut (filas : list fila_editor) :
  (forall r z l, In (r, z, l) filas -> r <> rut) -> ultima_cuenta cuentas rut filas = None.
Proof.
  induction filas as [|[[r z] l] filas IH]; intros H; cbn; [reflexivity|].
  rewrite IH by (intros r' z' l' Hi; apply (H r' z' l'); right; exact Hi).
  destruct (String.eqb_spec r rut) as [E|E]; [|reflexivity].
  exfalso. exact (H r z l (or_introl eq_refl) E).
Qed.

Lemma ultima_cuenta_tabla cuentas (provs : list Proveedor.t) (q : Proveedor.t) :
  NoDup (map Proveedor.rut provs) -> In q provs ->
  (forall p, In p provs -> opciones cuentas (etiqueta_proveedor cuentas p) <> None) ->
  ultima_cuenta cuentas (Proveedor.rut q) (tabla_proveedores cuentas provs)
    = opciones cuentas (etiqueta_proveedor cuentas q).
Proof.
  induction provs as [|p provs IH]; intros Hn Hin Ho; [destruct Hin|].
  cbn in Hn. apply NoDup_cons_iff in Hn as [Hp Hn].
  cbn [tabla_proveedores map ultima_cuenta].
  destruct Hin as [<-|Hin].
  - rewrite ultima_cuenta_ausente, String.eqb_refl; [reflexivity|].
    intros r z l Hi E. apply Hp. unfold tabla_proveedores in Hi.
    apply in_map_iff in Hi as (p' & Hp' & Hi). injection Hp' as E1 _ _.
    rewrite <- E, <- E1. apply in_map. exact Hi.
  - fold (tabla_proveedores cuentas provs).
    rewrite IH by (auto; intros p' Hp'; apply Ho; right; exact Hp').
    destruct (opciones cuentas (etiqueta_proveedor cuentas q)) eqn:E; [reflexivity|].
    exfalso. exact (Ho q (or_intror Hin) E).
Qed.

(** Saving the table as the tab shows it, without edits, changes nothing,
    when every supplier's default account is in the chart, the chart's ids
    and labels are distinct and no two suppliers share a tax id. *)
Theorem guardar_tabla_sin_cambios (st : store) :
  NoDup (map PlanCuentas.id_cuenta (plan_cuentas st)) ->
  NoDup (map etiqueta (plan_cuentas st)) ->
  NoDup (map Proveedor.rut (proveedores st)) ->
  (forall p, In p (proveedores st) -> exists c, In c (plan_cuentas st) /\
     Proveedor.cuenta_contable_default_id p = Some (PlanCuentas.id_cuenta c)) ->
  let cuentas := ordenar_cuentas (plan_cuentas st) in
  guardar_clasificacion cuentas (tabla_proveedores cuentas (proveedores st)) st = (None, st).
Proof.
  intros Hi He Hr Hd cuentas.
  pose proof (ordenar_cuentas_perm (plan_cuentas st)) as P. fold cuentas in P.
  assert (Hi' : NoDup (map PlanCuentas.id_cuenta cuentas))
    by (eapply Permutation_NoDup; [symmetry; apply Permutation_map; exact P | exact Hi]).
  assert (He' : NoDup (map etiqueta cuentas))
    by (eapply Permutation_NoDup; [symmetry; apply Permutation_map; exact P | exact He]).
  assert (Hop : forall p, In p (proveedores st) ->
            opciones cuentas (etiqueta_proveedor cuentas p) = Proveedor.cuenta_contable_default_id p).
  { intros p Hp. destruct (Hd p Hp) as (c & Hc & Ed).
    assert (Hc' : In c cuentas) by (eapply Permutation_in; [symmetry; exact P | exact Hc]).
    unfold etiqueta_proveedor. rewrite Ed, map_cuentas_unica, opciones_unica by assumption.
    reflexivity. }
  assert (Ho : forall p, In p (proveedores st) -> opciones cuentas (etiqueta_proveedor cuentas p) <> None).
  { intros p Hp. rewrite Hop by exact Hp. destruct (Hd p Hp) as (c & _ & ->). discriminate. }
  unfold guardar_clasificacion. rewrite guardar_filas_forma.
  rewrite find_todos_falsos.
  - rewrite map_ext_in with (g := fun p => p).
    + rewrite map_id. destruct st; reflexivity.
    + intros p Hp. unfold aplicar_ultima.
      rewrite ultima_cuenta_tabla, Hop by assumption.
      destruct (Hd p Hp) as (c & _ & Ed). rewrite Ed.
      unfold con_cuenta. destruct p as [r z dflt]; cbn in Ed |- *. rewrite Ed. reflexivity.
  - intros f Hf. unfold tabla_proveedores in Hf. apply in_map_iff in Hf as (p & <- & Hp).
    unfold fila_falla. destruct (opciones cuentas (etiqueta_proveedor cuentas p)) eqn:E.
    + apply andb_false_r.
    + exfalso. exact (Ho p Hp E).
Qed.

Lemma guardar_tabla_sin_cambios_witness :
  NoDup (map PlanCuentas.id_cuenta (plan_cuentas st_acme)) /\
  NoDup (map etiqueta (plan_cuentas st_acme)) /\
  NoDup (map Proveedor.rut (proveedores st_acme)) /\
  (forall p, In p (proveedores st_acme) -> exists c, In c (plan_cuentas st_acme) /\
     Proveedor.cuenta_contable_default_id p = Some (PlanCuentas.id_cuenta c)) /\
  let cuentas := ordenar_cuentas (plan_cuentas st_acme) in
  guardar_clasificacion cuentas (tabla_proveedores cuentas (proveedores st_acme)) st_acme
    = (None, st_acme).
Proof.
  assert (Hi : NoDup (map PlanCuentas.id_cuenta (plan_cuentas st_acme))).
  { vm_compute. repeat constructor; cbn; intuition discriminate. }
  assert (He : NoDup (map etiqueta (plan_cuentas st_acme))).
  { vm_compute. repeat constructor; cbn; intuition discriminate. }
  assert (Hr : NoDup (map Proveedor.rut (proveedores st_acme))).
  { vm_compute. repeat constructor; cbn; intuition discriminate. }
  assert (Hd : forall p, In p (proveedores st_acme) -> exists c, In c (plan_cuentas st_acme) /\
            Proveedor.cuenta_contable_default_id p = Some (PlanCuentas.id_cuenta c)).
  { intros p Hp. vm_compute in Hp. destruct Hp as [<-|[]].
    exists cuenta_gastos. split; [vm_compute; left; reflexivity | reflexivity]. }
  split; [exact Hi|]. split; [exact He|]. split; [exact Hr|]. split; [exact Hd|].
  exact (guardar_tabla_sin_cambios st_acme Hi He Hr Hd).
Defined.

Lemma movimientos_st_acme_en_plan :
  forall m, In m (movimientos st_acme) ->
    In (Movimiento.id_cuenta m) (map PlanCuentas.id_cuenta (plan_cuentas st_acme)).
Proof.
  intros m Hm. vm_compute in Hm.
  destruct Hm as [<-|[<-|[<-|[]]]]; vm_compute; auto.
Qed.

(** ** References to the chart of accounts *)

(** Every movement is booked to an account of the chart and every
    supplier's default account is one of the chart. *)
Definition referencias_validas (st : store) : Prop :=
  (forall m, In m (movimientos st) ->
     In (Movimiento.id_cuenta m) (map PlanCuentas.id_cuenta (plan_cuentas st))) /\
  (forall p i, In p (proveedores st) -> Proveedor.cuenta_contable_default_id p = Some i ->
     In i (map PlanCuentas.id_cuenta (plan_cuentas st))).

Lemma primera_cuenta_en_plan cuentas nombre c :
  primera_cuenta cuentas nombre = Some c -> In (PlanCuentas.id_cuenta c) (map PlanCuentas.id_cuenta cuentas).
Proof.
  unfold primera_cuenta. intros H. apply find_some in H as [H _]. apply in_map. exact H.
Qed.

(** Posting keeps every reference to the chart valid: the three accounts
    it books to are looked up in the chart or taken from the supplier,
    and a new supplier gets the expense account found in the chart. *)
Theorem procesar_preserva_referencias (d : documento) (st st' : store) (res : resultado res_post) :
  procesar_documento_con_control_duplicado d st = (res, st') ->
  referencias_validas st -> referencias_validas st'.
Proof.
  intros H [Hm Hp].
  unfold procesar_documento_con_control_duplicado in H.
  destruct (generar_asiento d st) as [[r|e] s] eqn:E.
  - injection H as <- <-.
    destruct (generar_asiento_exito_tablas d st s r E)
      as (cg & ci & cp & qn & qi & qt & Hg & Hi & Hpr & _ & _ & _ & _ & Ec & Ep & _ & _ & Em).
    apply primera_cuenta_en_plan in Hg, Hi, Hpr.
    unfold referencias_validas. rewrite Ec, Ep, Em. split.
    + intros m Hin. apply in_app_or in Hin as [Hin|Hin]; [exact (Hm m Hin)|].
      cbn in Hin. destruct Hin as [<-|[<-|[<-|[]]]]; cbn; [|assumption|assumption].
      unfold proveedor_efectivo, cuenta_gasto.
      destruct (buscar_proveedor st (rut_emisor d)) as [p|] eqn:Eb; [|exact Hg].
      destruct (Proveedor.cuenta_contable_default_id p) as [i|] eqn:Ed; [|exact Hg].
      unfold buscar_proveedor in Eb. apply find_some in Eb as [Eb _].
      exact (Hp p i Eb Ed).
    + intros p i Hin Ed. apply in_app_or in Hin as [Hin|Hin]; [exact (Hp p i Hin Ed)|].
      destruct (buscar_proveedor st (rut_emisor d)); [destruct Hin|].
      destruct Hin as [<-|[]]. cbn in Ed. injection Ed as <-. exact Hg.
  - apply generar_asiento_err_sin_cambios in E. subst s.
    destruct e; injection H as _ <-; split; assumption.
Qed.

Lemma referencias_st_sembrado : referencias_validas st_sembrado.
Proof. split; intros; cbn in *; contradiction. Qed.

Lemma procesar_preserva_referencias_witness :
  procesar_documento_con_control_duplicado doc_acme_sin_rzn st_sembrado
    = (Ok (Posted 1 1), st_acme) /\
  referencias_validas st_sembrado /\ referencias_validas st_acme.
Proof.
  assert (Hg : procesar_documento_con_control_duplicado doc_acme_sin_rzn st_sembrado
                 = (Ok (Posted 1 1), st_acme)) by (vm_compute; reflexivity).
  split; [exact Hg|]. split; [exact referencias_st_sembrado|].
  exact (procesar_preserva_referencias doc_acme_sin_rzn st_sembrado st_acme _ Hg
           referencias_st_sembrado).
Defined.

Lemma opciones_en_cuentas (cuentas : list PlanCuentas.t) (label : string) (i : positive) :
  opciones cuentas label = Some i -> In i (map PlanCuentas.id_cuenta cuentas).
Proof.
  unfold opciones.
  assert (G : forall acc, fold_left (fun acc c => if String.eqb (etiqueta c) label
                                                 then Some (PlanCuentas.id_cuenta c) else acc)
                             cuentas acc = Some i ->
              acc = Some i \/ In i (map PlanCuentas.id_cuenta cuentas)).
  { induction cuentas as [|c cuentas IH]; intros acc H; cbn in *; [left; exact H|].
    destruct (IH _ H) as [E|E]; [|right; right; exact E].
    destruct (String.eqb (etiqueta c) label); [|left; exact E].
    injection E as <-. right. left. reflexivity. }
  intros H. destruct (G None H) as [E|E]; [discriminate | exact E].
Qed.

Lemma ultima_cuenta_opcion cuentas rut (filas : list fila_editor) i :
  ultima_cuenta cuentas rut filas = Some i -> exists label, opciones cuentas label = Some i.
Proof.
  induction filas as [|[[r z] l] filas IH]; cbn; [discriminate|].
  destruct (ultima_cuenta cuentas rut filas); [intros H; apply IH; exact H|].
  destruct (String.eqb r rut); [eauto | discriminate].
Qed.

(** Saving the classification with the options of the chart keeps every
    reference to the chart valid: a supplier only gets an account the
    selector offers. *)
Theorem guardar_preserva_referencias (filas : list fila_editor) (st : store) :
  referencias_validas st ->
  referencias_validas (snd (guardar_clasificacion (ordenar_cuentas (plan_cuentas st)) filas st)).
Proof.
  intros [Hm Hp]. unfold guardar_clasificacion. rewrite guardar_filas_forma.
  destruct (find _ filas) as [[[x y] w]|]; cbn; [split; assumption|].
  split; [exact Hm|].
  intros q i Hin Ed. apply in_map_iff in Hin as (p & <- & Hin).
  unfold aplicar_ultima in Ed.
  destruct (ultima_cuenta _ (Proveedor.rut p) filas) as [j|] eqn:Eu; [|exact (Hp p i Hin Ed)].
  cbn in Ed. injection Ed as <-.
  destruct (ultima_cuenta_opcion _ _ _ _ Eu) as (label & Eo).
  apply opciones_en_cuentas in Eo.
  eapply Permutation_in; [apply Permutation_map, ordenar_cuentas_perm | exact Eo].
Qed.

Lemma guardar_preserva_referencias_witness :
  referencias_validas st_acme /\
  referencias_validas (snd (guardar_clasificacion (ordenar_cuentas (plan_cuentas st_acme))
                              [("76543210-1", "Acme", "5102 - Arriendos")] st_acme)).
Proof.
  assert (H : referencias_validas st_acme).
  { split; [exact movimientos_st_acme_en_plan|].
    intros p i Hp Ed. vm_compute in Hp. destruct Hp as [<-|[]].
    vm_compute in Ed. injection Ed as <-. vm_compute. auto. }
  split; [exact H|]. exact (guardar_preserva_referencias _ st_acme H).
Defined.

(** ** [str.strip()] in the normalizer *)

Fixpoint lstrip_l (l : list ascii) : list ascii :=
  match l with
  | [] => []
  | c :: r => if py_isspace c then lstrip_l r else l
  end.

Definition sin_espacio_inicial (l : list ascii) : Prop :=
  match l with [] => True | c :: _ => py_isspace c = false end.

Lemma lstrip_lista (s : string) : list_ascii_of_string (lstrip s) = lstrip_l (list_ascii_of_string s).
Proof.
  induction s as [|c s IH]; cbn; [reflexivity|].
  destruct (py_isspace c); [exact IH | reflexivity].
Qed.

Lemma rev_string_lista (s : string) : list_ascii_of_string (rev_string s) = rev (list_ascii_of_string s).
Proof. unfold rev_string. apply list_ascii_of_string_of_list_ascii. Qed.

Lemma lstrip_l_inicial (l : list ascii) : sin_espacio_inicial (lstrip_l l).
Proof.
  induction l as [|c l IH]; cbn; [exact I|].
  destruct (py_isspace c) eqn:E; [exact IH | exact E].
Qed.

Lemma lstrip_l_fijo (l : list ascii) : sin_espacio_inicial l -> lstrip_l l = l.
Proof. destruct l as [|c l]; cbn; [reflexivity|]. intros ->. reflexivity. Qed.

Lemma lstrip_l_sufijo (l : list ascii) : exists p, l = (p ++ lstrip_l l)%list.
Proof.
  induction l as [|c l [p IH]]; cbn; [exists []; reflexivity|].
  destruct (py_isspace c); [exists (c :: p); cbn; f_equal; exact IH | exists []; reflexivity].
Qed.

Lemma sin_espacio_inicial_app (x y : list ascii) :
  sin_espacio_inicial (x ++ y) -> sin_espacio_inicial x.
Proof. destruct x; cbn; auto. Qed.

Lemma py_strip_lista (s : string) :
  list_ascii_of_string (py_strip s)
  = rev (lstrip_l (rev (lstrip_l (list_ascii_of_string s)))).
Proof. unfold py_strip. rewrite rev_string_lista, lstrip_lista, rev_string_lista, lstrip_lista. reflexivity. Qed.

Lemma py_strip_idempotente (s : string) : py_strip (py_strip s) = py_strip s.
Proof.
  rewrite <- (string_of_list_ascii_of_string (py_strip (py_strip s))),
          <- (string_of_list_ascii_of_string (py_strip s)).
  f_equal. rewrite !py_strip_lista.
  set (v := rev (lstrip_l (list_ascii_of_string s))).
  set (u := lstrip_l v).
  assert (Hu : sin_espacio_inicial (rev u)).
  { destruct (lstrip_l_sufijo v) as [p Hp].
    apply (sin_espacio_inicial_app (rev u) (rev p)).
    rewrite <- rev_app_distr. unfold u. rewrite <- Hp. unfold v. rewrite rev_involutive.
    apply lstrip_l_inicial. }
  rewrite list_ascii_of_string_of_list_ascii, (lstrip_l_fijo (rev u) Hu), rev_involutive.
  unfold u. rewrite (lstrip_l_fijo (lstrip_l v) (lstrip_l_inicial v)). reflexivity.
Qed.

(** A record the parser returns has its folio, type, issuer and name
    stripped (stripping them again changes nothing, so surrounding blanks
    in the XML never reach the duplicate key) and carries the file name as
    its [url_archivo]. *)
Theorem parsear_dte_xml_campos fl sp parse (xml : list Byte.byte) (nombre : string) (d : documento) :
  parsear_dte_xml fl sp parse xml nombre = Ok d ->
  py_strip (folio d) = folio d /\ py_strip (tipo_dte d) = tipo_dte d /\
  py_strip (rut_emisor d) = rut_emisor d /\
  (exists s, razon_social d = Some s /\ py_strip s = s) /\
  url_archivo d = nombre.
Proof.
  unfold parsear_dte_xml, envolver_error, cuerpo_parsear.
  destruct (parse xml) as [m|data]; [discriminate|].
  destruct (cuerpo_desde_arbol fl sp data nombre) eqn:E; [|discriminate].
  intros H. injection H as <-.
  unfold cuerpo_desde_arbol, bind_res in E.
  destruct (negb (py_truthy _)); [discriminate|].
  repeat match type of E with
         | context [match ?x with Ok _ => _ | Err _ => _ end] =>
             destruct x; [|discriminate]
         end.
  injection E as <-. cbn [folio tipo_dte rut_emisor razon_social url_archivo].
  rewrite !py_strip_idempotente. repeat split.
  eexists; split; [reflexivity | apply py_strip_idempotente].
Qed.

Lemma parsear_dte_xml_campos_witness :
  parsear_dte_xml float_decimal strptime_iso (fun _ => inr arbol_acme) [] "acme.xml" = Ok doc_acme /\
  py_strip (folio doc_acme) = folio doc_acme /\ py_strip (tipo_dte doc_acme) = tipo_dte doc_acme /\
  py_strip (rut_emisor doc_acme) = rut_emisor doc_acme /\
  (exists s, razon_social doc_acme = Some s /\ py_strip s = s) /\
  url_archivo doc_acme = "acme.xml".
Proof.
  assert (H : parsear_dte_xml float_decimal strptime_iso (fun _ => inr arbol_acme) [] "acme.xml"
                = Ok doc_acme) by (vm_compute; reflexivity).
  split; [exact H|].
  exact (parsear_dte_xml_campos _ _ _ [] "acme.xml" doc_acme H).
Defined.

(** ** New suppliers *)

(** The save of the classification either raises [KeyError] with the
    label of the first row whose supplier exists and whose label is not
    an option, leaving the store as it was, or commits each supplier with
    the account of the last row that names it, every other table as it
    was. *)
Theorem guardar_filas_caracterizacion (cuentas : list PlanCuentas.t) (filas : list fila_editor)
  (st : store) :
  guardar_clasificacion cuentas filas st =
  match find (fila_falla cuentas (proveedores st)) filas with
  | Some (_, _, label) => (Some label, st)
  | None => (None, con_proveedores st (map (aplicar_ultima cuentas filas) (proveedores st)))
  end.
Proof.
  unfold guardar_clasificacion. rewrite guardar_filas_forma.
  destruct (find _ filas) as [[[x y] w]|]; reflexivity.
Qed.

(** Posting never creates a supplier with a name: the only records it
    accepts lack [razon_social], so the one supplier a post may add has
    the issuer's tax id, the placeholder name and the expense account
    as its default. *)
Theorem procesar_proveedor_nuevo (d : documento) (st st' : store) (res : resultado res_post) :
  procesar_documento_con_control_duplicado d st = (res, st') ->
  exists nuevos, proveedores st' = (proveedores st ++ nuevos)%list /\ (length nuevos <= 1)%nat /\
    Forall (fun p => Proveedor.rut p = rut_emisor d /\
                     Proveedor.razon_social p = "Proveedor sin nombre" /\
                     exists c, primera_cuenta (plan_cuentas st) nombre_gastos_default = Some c /\
                       Proveedor.cuenta_contable_default_id p = Some (PlanCuentas.id_cuenta c))
      nuevos.
Proof.
  intros H. unfold procesar_documento_con_control_duplicado in H.
  destruct (generar_asiento d st) as [[r|e] s] eqn:E.
  - injection H as <- <-.
    destruct (generar_asiento_exito_tablas d st s r E)
      as (cg & ci & cp & qn & qi & qt & Hg & _ & _ & Hr & _ & _ & _ & _ & Ep & _ & _ & _).
    rewrite Ep. eexists. split; [reflexivity|].
    destruct (buscar_proveedor st (rut_emisor d)); cbn; [split; [lia | constructor]|].
    split; [lia|]. constructor; [|constructor].
    unfold nuevo_proveedor. cbn [Proveedor.rut Proveedor.razon_social Proveedor.cuenta_contable_default_id].
    rewrite Hr. repeat split. eauto.
  - apply generar_asiento_err_sin_cambios in E. subst s.
    exists []. rewrite app_nil_r.
    destruct e; injection H as _ <-; (split; [reflexivity | split; [cbn; lia | constructor]]).
Qed.

Lemma procesar_proveedor_nuevo_witness :
  procesar_documento_con_control_duplicado doc_acme_sin_rzn st_sembrado
    = (Ok (Posted 1 1), st_acme) /\
  exists nuevos, proveedores st_acme = (proveedores st_sembrado ++ nuevos)%list /\
    (length nuevos <= 1)%nat /\
    Forall (fun p => Proveedor.rut p = rut_emisor doc_acme_sin_rzn /\
                     Proveedor.razon_social p = "Proveedor sin nombre" /\
                     exists c, primera_cuenta (plan_cuentas st_sembrado) nombre_gastos_default = Some c /\
                       Proveedor.cuenta_contable_default_id p = Some (PlanCuentas.id_cuenta c))
      nuevos.
Proof.
  assert (Hg : procesar_documento_con_control_duplicado doc_acme_sin_rzn st_sembrado
                 = (Ok (Posted 1 1), st_acme)) by (vm_compute; reflexivity).
  split; [exact Hg|].
  exact (procesar_proveedor_nuevo doc_acme_sin_rzn st_sembrado st_acme _ Hg).
Defined.

(** Posting the same record twice: the second post is reported as a
    duplicate and changes nothing. *)
Theorem procesar_dos_veces (d : documento) (st st' : store) (did aid : positive) :
  procesar_documento_con_control_duplicado d st = (Ok (Posted did aid), st') ->
  procesar_documento_con_control_duplicado d st' = (Ok (Duplicado motivo_duplicado), st').
Proof.
  intros H. unfold procesar_documento_con_control_duplicado at 1 in H.
  destruct (generar_asiento d st) as [[r|e] s] eqn:E.
  - injection H as -> <-.
    destruct (generar_asiento_exito_tablas d st s (Posted did aid) E)
      as (cg & ci & cp & qn & qi & qt & Hg & Hi & Hp & Hr & _ & _ & _ & Ec & _ & Ed & _ & _).
    apply procesar_duplicado_aux; rewrite ?Ec; try congruence.
    rewrite Ed, existsb_app. cbn. unfold misma_clave. cbn.
    rewrite !String.eqb_refl, orb_true_r. reflexivity.
  - destruct e; discriminate.
Qed.

Lemma procesar_dos_veces_witness :
  procesar_documento_con_control_duplicado doc_acme_sin_rzn st_sembrado
    = (Ok (Posted 1 1), st_acme) /\
  procesar_documento_con_control_duplicado doc_acme_sin_rzn st_acme
    = (Ok (Duplicado motivo_duplicado), st_acme).
Proof.
  assert (Hg : procesar_documento_con_control_duplicado doc_acme_sin_rzn st_sembrado
                 = (Ok (Posted 1 1), st_acme)) by (vm_compute; reflexivity).
  split; [exact Hg|].
  exact (procesar_dos_veces doc_acme_sin_rzn st_sembrado st_acme 1 1 Hg).
Defined.
